(** * passport-facebook-authcode: the authorization-code strategy

    A shallow embedding of [lib/passport-facebook-authcode/strategy.js]
    and the properties of its control flow.

    The strategy is callback-style JavaScript.  Here every method
    takes its callback as a function and calls it where the source
    does; a collaborator (the OAuth2 client, the skip predicate, the
    application's verify callback) is given by the arguments it
    completes its callback with, once, as the interface of the
    strategy asks of it.  A run of [authenticate] is the ordered list
    of its calls to collaborators and of the terminal signals it hands
    to passport ([fail], [error], [success]), together with the
    exception that escapes it, if any.

    Exceptions are those the language raises in the code itself (a
    property read on [undefined] or [null], [JSON.parse]) and those of
    the verify callback, which [userProfile] calls inside its [try]
    block. *)

From Stdlib Require Import List String Ascii ZArith Bool Lia.
From Stdlib Require Import DecimalString.
Import ListNotations.
Local Open Scope string_scope.
Set Warnings "-register-all".

(** ** JavaScript values *)

Module JS.

(** The data the strategy touches: JSON-like values plus [undefined].
    Objects keep their properties in insertion order.  Numbers are the
    integers (what the strategy does with a number is test its
    truthiness and copy it).  Functions are not values of this type:
    the one place where the source asks [typeof x == 'function'] has a
    type of its own, [skip_setting] below. *)
Inductive value : Type :=
| VUndefined
| VNull
| VBool (b : bool)
| VNum (n : Z)
| VStr (s : string)
| VArr (items : list value)
| VObj (props : list (string * value)).

(** The outcome of evaluating an expression: a value, or a thrown
    exception (itself a value). *)
Inductive result (A : Type) : Type :=
| Ok (a : A)
| Throw (e : value).
Arguments Ok {A} a.
Arguments Throw {A} e.

Definition rbind {A B} (r : result A) (k : A -> result B) : result B :=
  match r with
  | Ok a => k a
  | Throw e => Throw e
  end.

(** ToBoolean. *)
Definition truthy (v : value) : bool :=
  match v with
  | VUndefined | VNull => false
  | VBool b => b
  | VNum n => negb (Z.eqb n 0)
  | VStr s => negb (String.eqb s "")
  | VArr _ | VObj _ => true
  end.

(** Error objects raised by the language itself.  Only the [name] is
    kept; the message text depends on the engine. *)
Definition TypeError : value := VObj [("name", VStr "TypeError")].
Definition SyntaxError : value := VObj [("name", VStr "SyntaxError")].

Fixpoint lookup (k : string) (props : list (string * value)) : option value :=
  match props with
  | [] => None
  | (k', v) :: rest => if String.eqb k k' then Some v else lookup k rest
  end.

(** [o.k] for the property names the strategy reads (query, body,
    error, code, redirectUri, id, name, family_name, given_name,
    email): none of them is inherited by a plain object, an array or a
    primitive, so the read is the own property or [undefined]; reading
    a property of [undefined] or [null] throws a TypeError. *)
Definition getp (o : value) (k : string) : result value :=
  match o with
  | VUndefined | VNull => Throw TypeError
  | VObj props =>
      match lookup k props with
      | Some v => Ok v
      | None => Ok VUndefined
      end
  | _ => Ok VUndefined
  end.

Fixpoint update (k : string) (v : value) (props : list (string * value))
  : list (string * value) :=
  match props with
  | [] => [(k, v)]
  | (k', v') :: rest =>
      if String.eqb k k' then (k', v) :: rest else (k', v') :: update k v rest
  end.

(** [o.k = v] on an object: replace the property in place or append it. *)
Definition setp (o : value) (k : string) (v : value) : value :=
  match o with
  | VObj props => VObj (update k v props)
  | _ => o
  end.

(** [a || b] and [a && b]; the right operand is evaluated only when
    the left one does not decide. *)
Definition js_or (a : result value) (b : unit -> result value) : result value :=
  rbind a (fun x => if truthy x then Ok x else b tt).

Definition js_and (a : result value) (b : unit -> result value) : result value :=
  rbind a (fun x => if truthy x then b tt else Ok x).

(** Equality of values as data: objects are compared as maps from
    property names to values, whatever the order the properties were
    written in; arrays are compared position by position. *)
Fixpoint same_data (a b : value) {struct a} : bool :=
  match a, b with
  | VUndefined, VUndefined => true
  | VNull, VNull => true
  | VBool x, VBool y => Bool.eqb x y
  | VNum x, VNum y => Z.eqb x y
  | VStr x, VStr y => String.eqb x y
  | VArr xs, VArr ys =>
      (fix items (xs ys : list value) {struct xs} : bool :=
         match xs, ys with
         | [], [] => true
         | x :: xs', y :: ys' => same_data x y && items xs' ys'
         | _, _ => false
         end) xs ys
  | VObj ps, VObj qs =>
      Nat.eqb (List.length ps) (List.length qs) &&
      (fix props (ps : list (string * value)) {struct ps} : bool :=
         match ps with
         | [] => true
         | (k, v) :: ps' =>
             match lookup k qs with
             | Some w => same_data v w
             | None => false
             end && props ps'
         end) ps
  | _, _ => false
  end.

End JS.
Export JS.

(** ** The builtin [JSON.parse]

    [JSON.parse] belongs to the language, not to the repository.  The
    strategy below takes it as a parameter, so every general theorem
    holds for any parser.  [JSON_parse] is an executable one, used to
    run the strategy on concrete response bodies.  It covers the JSON
    texts whose numbers are integer literals and whose strings have no
    [\u] escape; a text outside this fragment is reported like a
    malformed one. *)

Module Json.

Local Open Scope char_scope.

Definition is_ws (c : ascii) : bool :=
  match c with
  | " " | "009" | "010" | "013" => true
  | _ => false
  end.

Fixpoint skip_ws (s : string) : string :=
  match s with
  | String c rest => if is_ws c then skip_ws rest else s
  | EmptyString => s
  end.

Definition digit_of (c : ascii) : option Z :=
  let n := nat_of_ascii c in
  if (48 <=? n)%nat && (n <=? 57)%nat then Some (Z.of_nat (n - 48)) else None.

(** The characters of a string literal, after its opening quote, up
    to and including the closing quote. *)
Fixpoint parse_chars (s : string) : option (string * string) :=
  match s with
  | EmptyString => None
  | String "034" rest => Some (EmptyString, rest)
  | String "\" (String e rest) =>
      let unescaped :=
        match e with
        | "034" => Some "034"
        | "\" => Some "\"
        | "/" => Some "/"
        | "b" => Some "008"
        | "f" => Some "012"
        | "n" => Some "010"
        | "r" => Some "013"
        | "t" => Some "009"
        | _ => None
        end in
      match unescaped, parse_chars rest with
      | Some c, Some (str, rest') => Some (String c str, rest')
      | _, _ => None
      end
  | String c rest =>
      if (nat_of_ascii c <? 32)%nat then None
      else match parse_chars rest with
           | Some (str, rest') => Some (String c str, rest')
           | None => None
           end
  end.

Fixpoint parse_digits (s : string) (acc : Z) : Z * string :=
  match s with
  | String c rest =>
      match digit_of c with
      | Some d => parse_digits rest (10 * acc + d)
      | None => (acc, s)
      end
  | EmptyString => (acc, s)
  end.

(** An integer literal: no leading zero, no fraction, no exponent. *)
Definition parse_nat (s : string) : option (Z * string) :=
  match s with
  | String c rest =>
      match digit_of c with
      | Some d =>
          let '(n, rest') := if Z.eqb d 0 then (0%Z, rest) else parse_digits rest d in
          match rest' with
          | String c' _ =>
              match digit_of c', c' with
              | Some _, _ | _, "." | _, "e" | _, "E" => None
              | _, _ => Some (n, rest')
              end
          | EmptyString => Some (n, rest')
          end
      | None => None
      end
  | EmptyString => None
  end.

Fixpoint strip_prefix (p s : string) : option string :=
  match p, s with
  | EmptyString, _ => Some s
  | String a p', String b s' => if Ascii.eqb a b then strip_prefix p' s' else None
  | String _ _, EmptyString => None
  end.

Definition parse_literal (s : string) : option (value * string) :=
  match strip_prefix "true" s, strip_prefix "false" s, strip_prefix "null" s with
  | Some rest, _, _ => Some (VBool true, rest)
  | _, Some rest, _ => Some (VBool false, rest)
  | _, _, Some rest => Some (VNull, rest)
  | _, _, _ =>
      match s with
      | String "-" rest =>
          match parse_nat rest with
          | Some (n, rest') => Some (VNum (- n), rest')
          | None => None
          end
      | _ =>
          match parse_nat s with
          | Some (n, rest') => Some (VNum n, rest')
          | None => None
          end
      end
  end.

(** Recursive descent.  A repeated member name keeps its first position
    and its last value, as in JavaScript. *)
Fixpoint parse_value (fuel : nat) (s : string) {struct fuel}
  : option (value * string) :=
  match fuel with
  | O => None
  | S fuel' =>
      match skip_ws s with
      | String "{" rest =>
          match skip_ws rest with
          | String "}" rest' => Some (VObj [], rest')
          | rest' => parse_members fuel' rest' []
          end
      | String "[" rest =>
          match skip_ws rest with
          | String "]" rest' => Some (VArr [], rest')
          | rest' => parse_items fuel' rest' []
          end
      | String "034" rest =>
          match parse_chars rest with
          | Some (str, rest') => Some (VStr str, rest')
          | None => None
          end
      | s' => parse_literal s'
      end
  end

with parse_items (fuel : nat) (s : string) (acc : list value) {struct fuel}
  : option (value * string) :=
  match fuel with
  | O => None
  | S fuel' =>
      match parse_value fuel' s with
      | Some (v, rest) =>
          match skip_ws rest with
          | String "," rest' => parse_items fuel' rest' (v :: acc)
          | String "]" rest' => Some (VArr (rev (v :: acc)), rest')
          | _ => None
          end
      | None => None
      end
  end

with parse_members (fuel : nat) (s : string) (acc : list (string * value))
  {struct fuel} : option (value * string) :=
  match fuel with
  | O => None
  | S fuel' =>
      match skip_ws s with
      | String "034" rest =>
          match parse_chars rest with
          | Some (k, rest1) =>
              match skip_ws rest1 with
              | String ":" rest2 =>
                  match parse_value fuel' rest2 with
                  | Some (v, rest3) =>
                      match skip_ws rest3 with
                      | String "," rest4 => parse_members fuel' rest4 (update k v acc)
                      | String "}" rest4 => Some (VObj (update k v acc), rest4)
                      | _ => None
                      end
                  | None => None
                  end
              | _ => None
              end
          | None => None
          end
      | _ => None
      end
  end.

Definition parse_text (text : string) : result value :=
  match parse_value (2 * String.length text + 2) text with
  | Some (v, rest) =>
      match skip_ws rest with
      | EmptyString => Ok v
      | _ => Throw SyntaxError
      end
  | None => Throw SyntaxError
  end.

Local Open Scope string_scope.

Definition string_of_Z (n : Z) : string := NilZero.string_of_int (Z.to_int n).

(** ToString, which [JSON.parse] applies to its argument first. *)
Fixpoint to_string (v : value) : string :=
  match v with
  | VUndefined => "undefined"
  | VNull => "null"
  | VBool true => "true"
  | VBool false => "false"
  | VNum n => string_of_Z n
  | VStr s => s
  | VArr items =>
      (fix join (items : list value) : string :=
         match items with
         | [] => ""
         | x :: rest =>
             let element :=
               match x with
               | VUndefined | VNull => ""
               | _ => to_string x
               end in
             match rest with
             | [] => element
             | _ => element ++ "," ++ join rest
             end
         end) items
  | VObj _ => "[object Object]"
  end.

Definition JSON_parse (text : value) : result value := parse_text (to_string text).

(** Rocq string literals delimit with the double quote; [dq] lets a
    JSON text be written with apostrophes in its place. *)
Fixpoint dq (s : string) : string :=
  match s with
  | String "'"%char rest => String "034"%char (dq rest)
  | String c rest => String c (dq rest)
  | EmptyString => EmptyString
  end.

End Json.

(** ** The strategy *)

Module Strategy.

(** The inbound request: the two fields the strategy reads.  A field
    that the hosting framework did not set is [VUndefined]. *)
Record request : Type := {
  query : value;
  body : value
}.

(** What an attempt is seen to do: its calls to collaborators, in
    order, and the terminal signals it hands to passport.  A call
    records the arguments other than the completion callback. *)
Inductive event : Type :=
| CallExchange (authCode params : value)
    (* this._oauth2.getOAuthAccessToken(authCode, params, done) *)
| CallSkipAsync (accessToken : value)
    (* this._skipUserProfile(accessToken, function(err, skip) ...) *)
| CallSkipSync
    (* this._skipUserProfile() *)
| CallGet (url : string) (accessToken : value)
    (* this._oauth2.get(url, accessToken, function (err, body, res) ...) *)
| CallVerify (req : option request) (accessToken refreshToken profile : value)
    (* self._verify([req,] accessToken, refreshToken, profile, verified) *)
| SigFail (args : list value)
    (* this.fail(...) *)
| SigError (err : value)
    (* self.error(err) *)
| SigSuccess (user info : value).
    (* self.success(user, info) *)

(** The [skipUserProfile] option as [_loadUserProfile] tells its cases
    apart: a function, with its declared number of parameters
    ([.length]), or any other value.  A function is called either with
    no argument, and then its return value is used, or with the access
    token and a callback, and then the [(err, skip)] it completes the
    callback with is used. *)
Inductive skip_setting : Type :=
| SkipValue (v : value)
| SkipFunction (length : nat) (returns : value) (completes : value -> value * value).

(** The application's verify callback either completes [verified]
    with [(err, user, info)] or raises. *)
Inductive verify_outcome : Type :=
| Completes (err user info : value)
| Raises (e : value).

(** The OAuth2 client of the base class: each operation is given by
    the arguments it completes its callback with, [(err, accessToken,
    refreshToken, results)] and [(err, body, res)]. *)
Record oauth2 : Type := {
  getOAuthAccessToken : value -> value -> value * value * value * value;
  get : string -> value -> value * value * value
}.

(** The fields of [this] that the methods use. *)
Record strategy : Type := {
  _passReqToCallback : value;
  _skipUserProfile : skip_setting;
  _oauth2 : oauth2;
  _verify : option request -> value -> value -> value -> verify_outcome
}.

(** *** Events and exceptions *)

Definition M (A : Type) : Type := (list event * result A)%type.

Definition ret {A} (a : A) : M A := ([], Ok a).

Definition bind {A B} (m : M A) (k : A -> M B) : M B :=
  match m with
  | (t, Ok a) => let '(t', r) := k a in ((t ++ t')%list, r)
  | (t, Throw e) => (t, Throw e)
  end.

Definition emit (e : event) : M unit := ([e], Ok tt).

Definition lift {A} (r : result A) : M A := ([], r).

Definition throw {A} (e : value) : M A := ([], Throw e).

(** [try { m } catch (e) { handler e }]: what [m] did before it threw
    stays done. *)
Definition try_catch {A} (m : M A) (handler : value -> M A) : M A :=
  match m with
  | (t, Ok a) => (t, Ok a)
  | (t, Throw e) => let '(t', r) := handler e in ((t ++ t')%list, r)
  end.

Notation "x <- m ;; k" := (bind m (fun x => k))
  (at level 61, m at next level, right associativity).
Notation "m ;; k" := (bind m (fun _ => k))
  (at level 61, right associativity).

(** *** Collaborators of the hosting framework and of passport-oauth *)

Definition fail (args : list value) : M unit := emit (SigFail args).
Definition error (err : value) : M unit := emit (SigError err).
Definition success (user info : value) : M unit := emit (SigSuccess user info).

(** [new InternalOAuthError(message, err)] of passport-oauth. *)
Definition InternalOAuthError (message : string) (err : value) : value :=
  VObj [("name", VStr "InternalOAuthError");
        ("message", VStr message);
        ("oauthError", err)].

Section Methods.

Variable JSON_parse : value -> result value.
Variable self : strategy.

(** strategy.js, lines 115-121. *)
Definition _exchangeAuthCode (authCode redirectUri : value)
    (done : value -> value -> value -> value -> M unit) : M unit :=
  let params := VObj [("grant_type", VStr "authorization_code");
                      ("redirect_uri", redirectUri)] in
  emit (CallExchange authCode params) ;;
  let '(err, accessToken, refreshToken, resultsJson) :=
    getOAuthAccessToken (_oauth2 self) authCode params in
  done err accessToken refreshToken resultsJson.

(** strategy.js, lines 138-160.  The [try] block runs from
    [JSON.parse] to the call of [done]. *)
Definition userProfile (accessToken : value) (done : value -> value -> M unit)
  : M unit :=
  emit (CallGet "https://graph.facebook.com/v2.2/me" accessToken) ;;
  let '(err, body, res) :=
    get (_oauth2 self) "https://graph.facebook.com/v2.2/me" accessToken in
  if truthy err then
    done (InternalOAuthError "failed to fetch user profile" err) VUndefined
  else
    try_catch
      (json <- lift (JSON_parse body) ;;
       let profile := VObj [("provider", VStr "facebook")] in
       id <- lift (getp json "id") ;;
       let profile := setp profile "id" id in
       name <- lift (getp json "name") ;;
       let profile := setp profile "displayName" name in
       family_name <- lift (getp json "family_name") ;;
       given_name <- lift (getp json "given_name") ;;
       let profile := setp profile "name"
                        (VObj [("familyName", family_name);
                               ("givenName", given_name)]) in
       email <- lift (getp json "email") ;;
       let profile := setp profile "emails" (VArr [VObj [("value", email)]]) in
       let profile := setp profile "_raw" body in
       let profile := setp profile "_json" json in
       done VNull profile)
      (fun e => done e VUndefined).

(** strategy.js, lines 170-192. *)
Definition _loadUserProfile (accessToken : value) (done : value -> value -> M unit)
  : M unit :=
  let loadIt := fun _ : unit => userProfile accessToken done in
  let skipIt := fun _ : unit => done VNull VUndefined in
  match _skipUserProfile self with
  | SkipFunction length returns completes =>
      if (1 <? length)%nat then
        emit (CallSkipAsync accessToken) ;;
        let '(err, skip) := completes accessToken in
        if truthy err then done err VUndefined
        else if negb (truthy skip) then loadIt tt
        else skipIt tt
      else
        emit CallSkipSync ;;
        let skip := returns in
        if negb (truthy skip) then loadIt tt
        else skipIt tt
  | SkipValue v =>
      let skip := v in
      if negb (truthy skip) then loadIt tt
      else skipIt tt
  end.

(** strategy.js, lines 93-97. *)
Definition verified (err user info : value) : M unit :=
  if truthy err then error err
  else if negb (truthy user) then fail [info]
  else success user info.

(** strategy.js, lines 64-106. *)
Definition authenticate (req : request) (options : value) : M unit :=
  let options := if truthy options then options else VObj [] in
  c <- lift (js_and (Ok (query req)) (fun _ => getp (query req) "error")) ;;
  if truthy c then fail []
  else if negb (truthy (body req)) then fail []
  else
    authCode <- lift (js_or (getp (body req) "code")
                            (fun _ => getp (query req) "code")) ;;
    redirectUri <- lift (js_or (getp (body req) "redirectUri")
                               (fun _ => getp (query req) "redirectUri")) ;;
    if negb (truthy authCode) then fail []
    else
      _exchangeAuthCode authCode redirectUri
        (fun err accessToken refreshToken resultsJson =>
           if truthy err then fail [err]
           else
             _loadUserProfile accessToken
               (fun err profile =>
                  if truthy err then fail [err]
                  else
                    let call_verify := fun r : option request =>
                      emit (CallVerify r accessToken refreshToken profile) ;;
                      match _verify self r accessToken refreshToken profile with
                      | Completes err user info => verified err user info
                      | Raises e => throw e
                      end in
                    if truthy (_passReqToCallback self)
                    then call_verify (Some req)
                    else call_verify None)).

End Methods.

(** *** Reading a run *)

Definition trace {A} (m : M A) : list event := fst m.

Definition is_signal (e : event) : bool :=
  match e with
  | SigFail _ | SigError _ | SigSuccess _ _ => true
  | _ => false
  end.

Definition is_exchange (e : event) : bool :=
  match e with CallExchange _ _ => true | _ => false end.

Definition is_get (e : event) : bool :=
  match e with CallGet _ _ => true | _ => false end.

Definition is_verify (e : event) : bool :=
  match e with CallVerify _ _ _ _ => true | _ => false end.

Definition is_skip (e : event) : bool :=
  match e with CallSkipAsync _ | CallSkipSync => true | _ => false end.

(** The terminal signals of a run, and its calls to each collaborator. *)
Definition signals (t : list event) : list event := filter is_signal t.
Definition exchange_calls (t : list event) : list event := filter is_exchange t.
Definition get_calls (t : list event) : list event := filter is_get t.
Definition verify_calls (t : list event) : list event := filter is_verify t.
Definition skip_calls (t : list event) : list event := filter is_skip t.

End Strategy.

(** ** Vocabulary of the specification *)

Import Json Strategy.

Definition profile_url : string := "https://graph.facebook.com/v2.2/me".

(** The request's query carries an error indicator. *)
Definition has_error_indicator (req : request) : Prop :=
  exists e, getp (query req) "error" = Ok e /\ truthy e = true.

(** The request has a body payload. *)
Definition has_body (req : request) : Prop := truthy (body req) = true.

(** The value an attempt takes for field [k]: the body's when the body
    has one, otherwise the query's. *)
Definition extracted (req : request) (k : string) (v : value) : Prop :=
  exists b, getp (body req) k = Ok b /\
    if truthy b then v = b else getp (query req) k = Ok v.

(** The parser raises error objects only. *)
Definition raises_errors (parse : value -> result value) : Prop :=
  forall text e, parse text = Throw e -> truthy e = true.

(** The parameters of the token exchange. *)
Definition exchange_params (redirectUri : value) : value :=
  VObj [("grant_type", VStr "authorization_code");
        ("redirect_uri", redirectUri)].

Definition nullish (v : value) : bool :=
  match v with
  | VUndefined | VNull => true
  | _ => false
  end.

(** The Profile Normalizer fails with [e] on [accessToken]: the GET of
    the identity endpoint fails, or its body does not parse, or it
    parses to [null], of which no field can be read. *)
Definition normalizer_fails (parse : value -> result value) (self : strategy)
    (accessToken e : value) : Prop :=
  let '(err, body, _) := get (_oauth2 self) profile_url accessToken in
  (truthy err = true /\ e = InternalOAuthError "failed to fetch user profile" err)
  \/ (truthy err = false /\ parse body = Throw e)
  \/ (truthy err = false /\ e = TypeError /\
      exists json, parse body = Ok json /\ nullish json = true).

(** The identity endpoint answers [accessToken] with [body], which
    parses to [json], a value with fields. *)
Definition fetched (parse : value -> result value) (self : strategy)
    (accessToken body json : value) : Prop :=
  exists err res,
    get (_oauth2 self) profile_url accessToken = (err, body, res) /\
    truthy err = false /\ parse body = Ok json /\ nullish json = false.

(** What the skip setting decides for an attempt. *)
Inductive skip_decision : Type :=
| SkipFailed (err : value)
| Decided (skip : bool).

Definition decide_skip (self : strategy) (accessToken : value) : skip_decision :=
  match _skipUserProfile self with
  | SkipValue v => Decided (truthy v)
  | SkipFunction length returns completes =>
      if (1 <? length)%nat then
        let '(err, skip) := completes accessToken in
        if truthy err then SkipFailed err else Decided (truthy skip)
      else Decided (truthy returns)
  end.

(** The call of the skip setting, when it is a function. *)
Definition skip_call (self : strategy) (accessToken : value) : list event :=
  match _skipUserProfile self with
  | SkipValue _ => []
  | SkipFunction length _ _ =>
      if (1 <? length)%nat then [CallSkipAsync accessToken] else [CallSkipSync]
  end.

(** A run after the events [pre]. *)
Definition after {A} (pre : list event) (m : M A) : M A :=
  ((pre ++ fst m)%list, snd m).

(** The profile built from a response [body] that parsed to [json]
    (strategy.js, lines 145-153); [field] is a property of a parsed
    response that is not [null]. *)
Definition field (json : value) (k : string) : value :=
  match getp json k with
  | Ok v => v
  | Throw _ => VUndefined
  end.

Definition normalized (body json : value) : value :=
  VObj [("provider", VStr "facebook");
        ("id", field json "id");
        ("displayName", field json "name");
        ("name", VObj [("familyName", field json "family_name");
                       ("givenName", field json "given_name")]);
        ("emails", VArr [VObj [("value", field json "email")]]);
        ("_raw", body);
        ("_json", json)].

(** The terminal signal for a completion [(err, user, info)] of the
    verify callback. *)
Definition outcome (err user info : value) : event :=
  if truthy err then SigError err
  else if truthy user then SigSuccess user info
  else SigFail [info].

(** The callbacks that [authenticate] passes on, by name. *)
Section Callbacks.

Variable JSON_parse : value -> result value.
Variable self : strategy.
Variable req : request.

(** The request argument of the verify call. *)
Definition forwarded : option request :=
  if truthy (_passReqToCallback self) then Some req else None.

(** The call of [self._verify]. *)
Definition verify_run (accessToken refreshToken profile : value) : M unit :=
  match _verify self forwarded accessToken refreshToken profile with
  | Completes err user info =>
      ([CallVerify forwarded accessToken refreshToken profile;
        outcome err user info], Ok tt)
  | Raises e =>
      ([CallVerify forwarded accessToken refreshToken profile], Throw e)
  end.

(** The callback given to [_loadUserProfile] (line 90). *)
Definition loaded (accessToken refreshToken err profile : value) : M unit :=
  if truthy err then ([SigFail [err]], Ok tt)
  else verify_run accessToken refreshToken profile.

(** The callback given to [_exchangeAuthCode] (line 87). *)
Definition exchanged (err accessToken refreshToken resultsJson : value) : M unit :=
  if truthy err then ([SigFail [err]], Ok tt)
  else _loadUserProfile JSON_parse self accessToken (loaded accessToken refreshToken).

End Callbacks.

(** The runs of the profile and verification phase of an attempt that
    exchanged its code for [accessToken] and [refreshToken]: the
    states DecidingProfileSkip, LoadingProfile and Verifying. *)
Inductive profile_phase (parse : value -> result value) (self : strategy)
    (req : request) (accessToken refreshToken : value) : M unit -> Prop :=
| Phase_skip_failed (err : value) :
    decide_skip self accessToken = SkipFailed err ->
    profile_phase parse self req accessToken refreshToken
      (after (skip_call self accessToken) ([SigFail [err]], Ok tt))
| Phase_skipped :
    decide_skip self accessToken = Decided true ->
    profile_phase parse self req accessToken refreshToken
      (after (skip_call self accessToken)
         (verify_run self req accessToken refreshToken VUndefined))
| Phase_fetch_failed (e : value) :
    decide_skip self accessToken = Decided false ->
    normalizer_fails parse self accessToken e ->
    profile_phase parse self req accessToken refreshToken
      (after (skip_call self accessToken)
         ([CallGet profile_url accessToken; SigFail [e]], Ok tt))
| Phase_verified (body json err user info : value) :
    decide_skip self accessToken = Decided false ->
    fetched parse self accessToken body json ->
    _verify self (forwarded self req) accessToken refreshToken
      (normalized body json) = Completes err user info ->
    profile_phase parse self req accessToken refreshToken
      (after (skip_call self accessToken)
         ([CallGet profile_url accessToken;
           CallVerify (forwarded self req) accessToken refreshToken
             (normalized body json);
           outcome err user info], Ok tt))
| Phase_verify_raised (body json e : value) :
    decide_skip self accessToken = Decided false ->
    fetched parse self accessToken body json ->
    _verify self (forwarded self req) accessToken refreshToken
      (normalized body json) = Raises e ->
    profile_phase parse self req accessToken refreshToken
      (after (skip_call self accessToken)
         (after [CallGet profile_url accessToken;
                 CallVerify (forwarded self req) accessToken refreshToken
                   (normalized body json)]
            (loaded self req accessToken refreshToken e VUndefined))).

(** The runs of an attempt: the states of the Flow Controller. *)
Inductive attempt (parse : value -> result value) (self : strategy)
    (req : request) : M unit -> Prop :=
| Attempt_rejected :
    attempt parse self req ([SigFail []], Ok tt)
| Attempt_threw :
    attempt parse self req ([], Throw TypeError)
| Attempt_exchange_failed
    (authCode redirectUri err accessToken refreshToken resultsJson : value) :
    extracted req "code" authCode ->
    extracted req "redirectUri" redirectUri ->
    getOAuthAccessToken (_oauth2 self) authCode (exchange_params redirectUri)
    = (err, accessToken, refreshToken, resultsJson) ->
    truthy err = true ->
    attempt parse self req
      ([CallExchange authCode (exchange_params redirectUri); SigFail [err]], Ok tt)
| Attempt_exchanged
    (authCode redirectUri err accessToken refreshToken resultsJson : value)
    (m : M unit) :
    extracted req "code" authCode ->
    extracted req "redirectUri" redirectUri ->
    getOAuthAccessToken (_oauth2 self) authCode (exchange_params redirectUri)
    = (err, accessToken, refreshToken, resultsJson) ->
    truthy err = false ->
    profile_phase parse self req accessToken refreshToken m ->
    attempt parse self req
      (after [CallExchange authCode (exchange_params redirectUri)] m).

(** ** Sample attempts *)

Module Samples.

(** A request carrying a code and a redirect URI in its body. *)
Definition code_request : request :=
  {| query := VObj [];
     body := VObj [("code", VStr "xyz"); ("redirectUri", VStr "https://app/cb")] |}.

(** A request with a parsed body and no query object. *)
Definition no_query_request : request :=
  {| query := VUndefined; body := VObj [] |}.

(** A client whose exchange yields the tokens A and B and whose
    identity endpoint answers with [body]. *)
Definition client (body : value) : oauth2 :=
  {| getOAuthAccessToken := fun _ _ => (VNull, VStr "A", VStr "B", VObj []);
     get := fun _ _ => (VNull, body, VUndefined) |}.

(** A client whose identity endpoint cannot be reached. *)
Definition unreachable_client : oauth2 :=
  {| getOAuthAccessToken := fun _ _ => (VNull, VStr "A", VStr "B", VObj []);
     get := fun _ _ => (VObj [("statusCode", VNum 500)], VUndefined, VUndefined) |}.

(** A client whose token endpoint rejects the code. *)
Definition rejecting_client : oauth2 :=
  {| getOAuthAccessToken :=
       fun _ _ => (VObj [("statusCode", VNum 400)], VUndefined, VUndefined, VUndefined);
     get := fun _ _ => (VNull, VStr "{}", VUndefined) |}.

(** A verify callback that accepts every user as [{id: 1}]. *)
Definition accept : option request -> value -> value -> value -> verify_outcome :=
  fun _ _ _ _ => Completes VNull (VObj [("id", VNum 1)]) VUndefined.

(** A verify callback that rejects with [(null, false, {message: 'denied'})]. *)
Definition deny : option request -> value -> value -> value -> verify_outcome :=
  fun _ _ _ _ => Completes VNull (VBool false) (VObj [("message", VStr "denied")]).

Definition sample (skip : skip_setting) (oauth : oauth2)
    (verify : option request -> value -> value -> value -> verify_outcome)
  : strategy :=
  {| _passReqToCallback := VUndefined;
     _skipUserProfile := skip;
     _oauth2 := oauth;
     _verify := verify |}.

Definition jane_body : value :=
  VStr (dq "{'id':'42','name':'Jane Doe','email':'jane@example.com'}").

Definition jane_json : value :=
  VObj [("id", VStr "42"); ("name", VStr "Jane Doe");
        ("email", VStr "jane@example.com")].

(** The profile of the specification's scenario, its properties in the
    order the specification writes them. *)
Definition jane_profile : value :=
  VObj [("provider", VStr "facebook");
        ("id", VStr "42");
        ("displayName", VStr "Jane Doe");
        ("name", VObj [("givenName", VUndefined); ("familyName", VUndefined)]);
        ("emails", VArr [VObj [("value", VStr "jane@example.com")]]);
        ("_raw", jane_body);
        ("_json", jane_json)].

(** A skip predicate of two parameters that completes with an error. *)
Definition failing_predicate : skip_setting :=
  SkipFunction 2 VUndefined (fun _ => (VStr "boom", VUndefined)).

(** A skip predicate of two parameters that completes with [(null, true)]. *)
Definition skipping_predicate : skip_setting :=
  SkipFunction 2 VUndefined (fun _ => (VNull, VBool true)).

(** A verify callback that reports an internal error. *)
Definition crash : option request -> value -> value -> value -> verify_outcome :=
  fun _ _ _ _ => Completes (VStr "db down") VUndefined VUndefined.

(** The identity endpoint answers with something that is not JSON. *)
Definition unparsable : strategy :=
  sample (SkipValue (VBool false)) (client (VStr "<html>")) accept.

(** The identity endpoint cannot be reached. *)
Definition unreachable : strategy :=
  sample (SkipValue (VBool false)) unreachable_client accept.

(** The identity endpoint answers with an object that has no id. *)
Definition anonymous : strategy :=
  sample (SkipValue (VBool false)) (client (VStr "{}")) accept.

(** The token endpoint rejects the code. *)
Definition rejected : strategy :=
  sample (SkipValue (VBool false)) rejecting_client accept.

(** The asynchronous skip predicate fails. *)
Definition predicate_fails : strategy :=
  sample failing_predicate (client jane_body) accept.

(** The profile is loaded and the user accepted, denied, or the
    verification fails. *)
Definition accepting : strategy :=
  sample (SkipValue (VBool false)) (client jane_body) accept.
Definition denying : strategy :=
  sample (SkipValue (VBool false)) (client jane_body) deny.
Definition crashing : strategy :=
  sample (SkipValue (VBool false)) (client jane_body) crash.

(** The three ways of configuring a skip. *)
Definition skip_by_flag : strategy :=
  sample (SkipValue (VBool true)) (client jane_body) accept.
Definition skip_by_function : strategy :=
  sample (SkipFunction 1 (VBool true) (fun _ => (VUndefined, VUndefined)))
         (client jane_body) accept.
Definition skip_by_callback : strategy :=
  sample skipping_predicate (client jane_body) accept.

(** Requests that are turned down before any exchange. *)
Definition error_request : request :=
  {| query := VObj [("error", VStr "access_denied")];
     body := VObj [("code", VStr "xyz")] |}.
Definition bodiless_request : request :=
  {| query := VObj [("code", VStr "xyz")]; body := VUndefined |}.
Definition codeless_request : request :=
  {| query := VObj []; body := VObj [] |}.

Definition sample_params : value :=
  VObj [("grant_type", VStr "authorization_code");
        ("redirect_uri", VStr "https://app/cb")].

End Samples.

(** ** The constructor *)

Module Construction.

(** What [new FacebookAuthCodeStrategy(options, verify)] does itself
    (strategy.js, lines 41-50): the fields it sets on [this] and the
    options it hands, with [verify], to the constructor of the base
    class.  The options are the caller's object, which the assignments
    of lines 43 and 44 change in place; an assignment to a property of
    a primitive is dropped.  An array passed as options is outside the
    model, the properties of arrays not being represented. *)
Record constructed : Type := {
  this_passReqToCallback : value;
  super_options : value;
  this_name : string
}.

Definition default_authorizationURL : string :=
  "https://www.facebook.com/v2.2/dialog/oauth".

Definition default_tokenURL : string :=
  "https://graph.facebook.com/oauth/access_token".

Definition FacebookAuthCodeStrategy (options : value) : result constructed :=
  let options := if truthy options then options else VObj [] in
  rbind (js_or (getp options "authorizationURL")
               (fun _ => Ok (VStr default_authorizationURL)))
    (fun authorizationURL =>
       let options := setp options "authorizationURL" authorizationURL in
       rbind (js_or (getp options "tokenURL")
                    (fun _ => Ok (VStr default_tokenURL)))
         (fun tokenURL =>
            let options := setp options "tokenURL" tokenURL in
            rbind (getp options "passReqToCallback")
              (fun passReqToCallback =>
                 Ok {| this_passReqToCallback := passReqToCallback;
                       super_options := options;
                       this_name := "facebook-authcode" |}))).

(** The endpoint that the constructor settles on for what the caller
    gave: the caller's if it is truthy, the default otherwise. *)
Definition settled (given : option value) (default : string) : value :=
  match given with
  | Some url => if truthy url then url else VStr default
  | None => VStr default
  end.

End Construction.

(** ** The order of an attempt *)

(** The stage an event belongs to: exchange, skip decision, profile
    fetch, verification, terminal signal. *)
Definition stage (e : event) : nat :=
  match e with
  | CallExchange _ _ => 0
  | CallSkipAsync _ | CallSkipSync => 1
  | CallGet _ _ => 2
  | CallVerify _ _ _ _ => 3
  | SigFail _ | SigError _ | SigSuccess _ _ => 4
  end.

(** No event of a trace belongs to an earlier stage than the event
    before it. *)
Fixpoint in_order (t : list event) : bool :=
  match t with
  | e :: (e' :: _) as rest => (stage e <=? stage e')%nat && in_order rest
  | _ => true
  end.

(** ** Further sample attempts *)

Module Scenarios.

Import Samples.

(** A verify callback that throws. *)
Definition throwing : option request -> value -> value -> value -> verify_outcome :=
  fun _ _ _ _ => Raises (VStr "TypeError in verify").

(** A verify callback that throws a falsy value when it is given a
    profile, and accepts when it is given none. *)
Definition throwing_falsy : option request -> value -> value -> value -> verify_outcome :=
  fun _ _ _ profile =>
    if truthy profile then Raises VUndefined
    else Completes VNull (VObj [("id", VNum 1)]) VUndefined.

Definition verify_throws : strategy :=
  sample (SkipValue (VBool false)) (client jane_body) throwing.

Definition verify_throws_skipped : strategy :=
  sample (SkipValue (VBool true)) (client jane_body) throwing.

Definition verify_throws_falsy : strategy :=
  sample (SkipValue (VBool false)) (client jane_body) throwing_falsy.

(** A strategy that forwards the request to the verify callback. *)
Definition forwarding : strategy :=
  {| _passReqToCallback := VBool true;
     _skipUserProfile := SkipValue (VBool false);
     _oauth2 := client jane_body;
     _verify := accept |}.

(** A request with a code in its body, no redirect URI and no query
    object. *)
Definition code_only_request : request :=
  {| query := VUndefined; body := VObj [("code", VStr "xyz")] |}.

(** A request whose body has everything and which has no query object. *)
Definition body_only_request : request :=
  {| query := VUndefined;
     body := VObj [("code", VStr "xyz"); ("redirectUri", VStr "https://app/cb")] |}.

(** A request with different codes in body and query. *)
Definition two_codes_request : request :=
  {| query := VObj [("code", VStr "from-query"); ("redirectUri", VStr "https://q/cb")];
     body := VObj [("code", VStr "from-body")] |}.

(** A request whose code comes with the query. *)
Definition query_code_request : request :=
  {| query := VObj [("code", VStr "from-query")];
     body := VObj [("state", VStr "s")] |}.

(** Skip settings that do not ask for a skip. *)
Definition load_by_default : strategy :=
  sample (SkipValue VUndefined) (client jane_body) accept.
Definition load_by_function : strategy :=
  sample (SkipFunction 0 (VBool false) (fun _ => (VUndefined, VUndefined)))
         (client jane_body) accept.
Definition load_by_callback : strategy :=
  sample (SkipFunction 2 VUndefined (fun _ => (VNull, VBool false)))
         (client jane_body) accept.

(** Options for the constructor. *)
Definition bare_options : value :=
  VObj [("clientID", VStr "123"); ("clientSecret", VStr "shhh")].

Definition custom_options : value :=
  VObj [("clientID", VStr "123");
        ("tokenURL", VStr "https://proxy/token");
        ("authorizationURL", VStr "");
        ("passReqToCallback", VBool true)].

(** A callback that records what it is given. *)
Definition recording (err profile : value) : M unit :=
  emit (CallVerify None err VUndefined profile).

(** A callback that throws on a profile and records an error. *)
Definition rethrowing (err profile : value) : M unit :=
  if truthy err then emit (SigFail [err]) else throw (VStr "late").

End Scenarios.

(** ** Properties *)

Section Properties.

Variable JSON_parse : value -> result value.
Hypothesis JSON_parse_raises_errors : raises_errors JSON_parse.

(** *** Normal forms of the callbacks and of the methods *)

Lemma getp_truthy (o : value) (k : string) :
  truthy o = true -> getp o k = Ok (field o k).
Proof.
  unfold field; destruct o; cbn; try discriminate; intros _; try reflexivity.
  destruct (lookup k props); reflexivity.
Qed.

Lemma getp_field (o : value) (k : string) :
  nullish o = false -> getp o k = Ok (field o k).
Proof.
  unfold field; destruct o; cbn; try discriminate; intros _; try reflexivity.
  destruct (lookup k props); reflexivity.
Qed.

Lemma getp_throws (o : value) (k : string) (e : value) :
  getp o k = Throw e -> e = TypeError /\ (o = VUndefined \/ o = VNull).
Proof.
  destruct o; cbn; try discriminate; try (intros H; inversion H; auto).
  destruct (lookup k props); discriminate.
Qed.

Lemma verified_run (err user info : value) :
  verified err user info = ([outcome err user info], Ok tt).
Proof.
  unfold verified, outcome, error, fail, success, emit.
  destruct (truthy err); [reflexivity|].
  destruct (truthy user); reflexivity.
Qed.

Lemma userProfile_ext (self : strategy) (accessToken : value)
    (done done' : value -> value -> M unit) :
  (forall err profile, done err profile = done' err profile) ->
  userProfile JSON_parse self accessToken done
  = userProfile JSON_parse self accessToken done'.
Proof.
  intros Hext. unfold userProfile, try_catch, bind, lift, emit.
  destruct (get _ _ _) as [[err body] res].
  rewrite !Hext.
  destruct (truthy err); [reflexivity|].
  destruct (JSON_parse body) as [json|e]; [|rewrite Hext; reflexivity].
  repeat (match goal with
          | |- context [getp json ?k] => destruct (getp json k)
          end; [|cbn; rewrite ?Hext; reflexivity]).
  cbn. rewrite Hext.
  destruct (done' _ _) as [t [[]|e]]; [reflexivity|].
  rewrite Hext. reflexivity.
Qed.

Lemma _loadUserProfile_ext (self : strategy) (accessToken : value)
    (done done' : value -> value -> M unit) :
  (forall err profile, done err profile = done' err profile) ->
  _loadUserProfile JSON_parse self accessToken done
  = _loadUserProfile JSON_parse self accessToken done'.
Proof.
  intros Hext. unfold _loadUserProfile.
  rewrite (userProfile_ext self accessToken done done' Hext).
  destruct (_skipUserProfile self) as [v|n returns completes].
  - rewrite Hext. reflexivity.
  - destruct (completes accessToken) as [err skip].
    rewrite !Hext. reflexivity.
Qed.

Lemma inline_callbacks (self : strategy) (req : request)
    (authCode redirectUri : value) (k : value -> value -> value -> value -> M unit) :
  (forall err accessToken refreshToken resultsJson,
     k err accessToken refreshToken resultsJson
     = exchanged JSON_parse self req err accessToken refreshToken resultsJson) ->
  _exchangeAuthCode self authCode redirectUri k
  = _exchangeAuthCode self authCode redirectUri (exchanged JSON_parse self req).
Proof.
  intros Hext. unfold _exchangeAuthCode.
  destruct (getOAuthAccessToken _ _ _) as [[[err accessToken] refreshToken] resultsJson].
  rewrite Hext. reflexivity.
Qed.

Lemma inline_exchanged (self : strategy) (req : request)
    (err accessToken refreshToken resultsJson : value) :
  (if truthy err then fail [err]
   else
     _loadUserProfile JSON_parse self accessToken
       (fun err profile =>
          if truthy err then fail [err]
          else
            let call_verify := fun r : option request =>
              emit (CallVerify r accessToken refreshToken profile) ;;
              match _verify self r accessToken refreshToken profile with
              | Completes err user info => verified err user info
              | Raises e => throw e
              end in
            if truthy (_passReqToCallback self)
            then call_verify (Some req)
            else call_verify None))
  = exchanged JSON_parse self req err accessToken refreshToken resultsJson.
Proof.
  unfold exchanged. destruct (truthy err); [reflexivity|].
  apply _loadUserProfile_ext. intros err' profile.
  unfold loaded, verify_run, forwarded.
  destruct (truthy err'); [reflexivity|].
  destruct (truthy (_passReqToCallback self));
    cbn; destruct (_verify _ _ _ _ _); try rewrite verified_run; reflexivity.
Qed.

(** [authenticate] with its callbacks called by name. *)
Lemma authenticate_unfold (self : strategy) (req : request) (options : value) :
  authenticate JSON_parse self req options =
  (c <- lift (js_and (Ok (query req)) (fun _ => getp (query req) "error")) ;;
   if truthy c then fail []
   else if negb (truthy (body req)) then fail []
   else
     authCode <- lift (js_or (getp (body req) "code")
                             (fun _ => getp (query req) "code")) ;;
     redirectUri <- lift (js_or (getp (body req) "redirectUri")
                                (fun _ => getp (query req) "redirectUri")) ;;
     if negb (truthy authCode) then fail []
     else _exchangeAuthCode self authCode redirectUri (exchanged JSON_parse self req)).
Proof.
  unfold authenticate, bind, lift.
  destruct (js_and _ _) as [c|e]; [|reflexivity].
  destruct (truthy c); [reflexivity|].
  destruct (negb (truthy (body req))); [reflexivity|].
  destruct (js_or _ _) as [authCode|e]; [|reflexivity].
  destruct (js_or _ _) as [redirectUri|e]; [|reflexivity].
  destruct (negb (truthy authCode)); [reflexivity|].
  rewrite (inline_callbacks self req authCode redirectUri); [reflexivity|].
  intros. apply inline_exchanged.
Qed.

Lemma indicator_check (req : request) :
  exists c, js_and (Ok (query req)) (fun _ => getp (query req) "error") = Ok c
            /\ (truthy c = true <-> has_error_indicator req).
Proof.
  unfold js_and, rbind, has_error_indicator.
  destruct (truthy (query req)) eqn:Hq.
  - rewrite (getp_truthy _ _ Hq). eexists; split; [reflexivity|].
    split; [intros H; eexists; split; [reflexivity|exact H]|].
    intros [e [He Ht]]. inversion He; subst; exact Ht.
  - exists (query req). split; [reflexivity|].
    split; [congruence|]. intros [e [He Ht]].
    destruct (query req); cbn in He, Hq; try discriminate;
      inversion He; subst e; cbn in Ht; discriminate.
Qed.

Lemma extraction (req : request) (k : string) (v : value) :
  js_or (getp (body req) k) (fun _ => getp (query req) k) = Ok v <->
  extracted req k v.
Proof.
  unfold js_or, rbind, extracted. split.
  - destruct (getp (body req) k) as [b|e]; [|discriminate].
    intros H. exists b. split; [reflexivity|].
    destruct (truthy b); [inversion H; reflexivity|exact H].
  - intros [b [Hb H]]. rewrite Hb.
    destruct (truthy b); [subst; reflexivity|exact H].
Qed.

Lemma extraction_throws (req : request) (k : string) (e : value) :
  js_or (getp (body req) k) (fun _ => getp (query req) k) = Throw e ->
  e = TypeError.
Proof.
  unfold js_or, rbind.
  destruct (getp (body req) k) as [b|e'] eqn:Hb.
  - destruct (truthy b); [discriminate|]. intros H. apply getp_throws in H. tauto.
  - intros H; inversion H; subst. apply getp_throws in Hb. tauto.
Qed.

Lemma authenticate_cases (self : strategy) (req : request) (options : value) :
  authenticate JSON_parse self req options = ([SigFail []], Ok tt)
  \/ authenticate JSON_parse self req options = ([], Throw TypeError)
  \/ exists authCode redirectUri,
       ~ has_error_indicator req /\ has_body req /\
       extracted req "code" authCode /\
       extracted req "redirectUri" redirectUri /\
       truthy authCode = true /\
       authenticate JSON_parse self req options =
       _exchangeAuthCode self authCode redirectUri (exchanged JSON_parse self req).
Proof.
  rewrite authenticate_unfold.
  generalize (exchanged JSON_parse self req); intros k.
  destruct (indicator_check req) as [c [Hc Hind]]. rewrite Hc.
  cbn [bind lift app].
  destruct (truthy c) eqn:Htc; [left; reflexivity|].
  destruct (truthy (body req)) eqn:Hb; [|left; reflexivity].
  cbn [negb].
  destruct (js_or (getp (body req) "code") _) as [authCode|e] eqn:Hcode.
  2:{ apply extraction_throws in Hcode; subst. right; left; reflexivity. }
  destruct (js_or (getp (body req) "redirectUri") _) as [redirectUri|e] eqn:Huri.
  2:{ apply extraction_throws in Huri; subst. right; left; reflexivity. }
  cbn [bind lift app].
  destruct (truthy authCode) eqn:Hac; [|left; reflexivity].
  right; right. exists authCode, redirectUri.
  apply extraction in Hcode, Huri.
  repeat split; try assumption.
  - intros Hi. apply Hind in Hi. congruence.
  - cbn [negb]. destruct (_exchangeAuthCode _ _ _ _); reflexivity.
Qed.

Lemma emit_then {A} (e : event) (m : M A) : (emit e ;; m) = after [e] m.
Proof. unfold bind, emit, after. destruct m; reflexivity. Qed.

Lemma after_nil {A} (m : M A) : after [] m = m.
Proof. destruct m; reflexivity. Qed.

Lemma after_after {A} (pre pre' : list event) (m : M A) :
  after pre (after pre' m) = after (pre ++ pre')%list m.
Proof. unfold after; cbn. rewrite app_assoc. reflexivity. Qed.

Lemma exchange_run (self : strategy) (authCode redirectUri : value)
    (k : value -> value -> value -> value -> M unit)
    (err accessToken refreshToken resultsJson : value) :
  getOAuthAccessToken (_oauth2 self) authCode (exchange_params redirectUri)
  = (err, accessToken, refreshToken, resultsJson) ->
  _exchangeAuthCode self authCode redirectUri k
  = after [CallExchange authCode (exchange_params redirectUri)]
          (k err accessToken refreshToken resultsJson).
Proof.
  unfold _exchangeAuthCode, exchange_params. intros ->. apply emit_then.
Qed.

Lemma load_cases (self : strategy) (accessToken : value)
    (done : value -> value -> M unit) :
  _loadUserProfile JSON_parse self accessToken done
  = after (skip_call self accessToken)
      match decide_skip self accessToken with
      | SkipFailed err => done err VUndefined
      | Decided true => done VNull VUndefined
      | Decided false => userProfile JSON_parse self accessToken done
      end.
Proof.
  unfold _loadUserProfile, decide_skip, skip_call.
  destruct (_skipUserProfile self) as [v|n returns completes].
  - destruct (truthy v); cbn [negb]; rewrite after_nil; reflexivity.
  - destruct (1 <? n)%nat.
    + destruct (completes accessToken) as [err skip].
      destruct (truthy err); [apply emit_then|].
      destruct (truthy skip); cbn [negb]; apply emit_then.
    + destruct (truthy returns); cbn [negb]; apply emit_then.
Qed.

Lemma skip_failure_truthy (self : strategy) (accessToken err : value) :
  decide_skip self accessToken = SkipFailed err -> truthy err = true.
Proof.
  unfold decide_skip.
  destruct (_skipUserProfile self) as [v|n returns completes]; [discriminate|].
  destruct (1 <? n)%nat; [|discriminate].
  destruct (completes accessToken) as [e skip].
  destruct (truthy e) eqn:He; [|discriminate].
  intros H; inversion H; subst; exact He.
Qed.

Lemma normalizer_failure_truthy (self : strategy) (accessToken e : value) :
  normalizer_fails JSON_parse self accessToken e -> truthy e = true.
Proof.
  unfold normalizer_fails.
  destruct (get _ _ _) as [[err body] res].
  intros [[_ ->]|[[_ H]|[_ [-> _]]]]; try reflexivity.
  exact (JSON_parse_raises_errors _ _ H).
Qed.

Lemma profile_cases (self : strategy) (accessToken : value)
    (done : value -> value -> M unit) :
  (exists e, normalizer_fails JSON_parse self accessToken e /\
     userProfile JSON_parse self accessToken done
     = after [CallGet profile_url accessToken] (done e VUndefined))
  \/ (exists body json, fetched JSON_parse self accessToken body json /\
        userProfile JSON_parse self accessToken done
        = after [CallGet profile_url accessToken]
            (try_catch (done VNull (normalized body json))
                       (fun e => done e VUndefined))).
Proof.
  unfold userProfile, normalizer_fails, fetched, profile_url.
  destruct (get _ _ _) as [[err body] res].
  destruct (truthy err) eqn:Herr.
  { left. eexists; split; [left; split; reflexivity|]. apply emit_then. }
  destruct (JSON_parse body) as [json|e] eqn:Hparse.
  2:{ left. exists e; split; [right; left; split; reflexivity|].
      rewrite emit_then. unfold try_catch, bind, lift.
      destruct (done _ _); reflexivity. }
  destruct (nullish json) eqn:Hnull.
  { left. exists TypeError; split.
    - right; right. repeat split. exists json; split; [reflexivity|assumption].
    - rewrite emit_then.
      destruct json; try discriminate;
        unfold try_catch, bind, lift; cbn [getp];
        destruct (done _ _); reflexivity. }
  right. exists body, json. split.
  { exists err, res. repeat split; assumption. }
  assert (Hf : forall k, getp json k = Ok (field json k))
    by (intros k; apply getp_field; assumption).
  rewrite emit_then. f_equal.
  do 6 (cbn [bind lift app]; rewrite ?Hf).
  unfold normalized. cbn [setp update String.eqb Ascii.eqb Bool.eqb].
  destruct (done VNull _) as [t r]; reflexivity.
Qed.

Lemma exchanged_phase (self : strategy) (req : request)
    (err accessToken refreshToken resultsJson : value) :
  truthy err = false ->
  profile_phase JSON_parse self req accessToken refreshToken
    (exchanged JSON_parse self req err accessToken refreshToken resultsJson).
Proof.
  intros Herr. unfold exchanged. rewrite Herr, load_cases.
  destruct (decide_skip self accessToken) as [serr|[|]] eqn:Hskip.
  - unfold loaded. rewrite (skip_failure_truthy _ _ _ Hskip).
    apply Phase_skip_failed; assumption.
  - apply Phase_skipped; assumption.
  - destruct (profile_cases self accessToken (loaded self req accessToken refreshToken))
      as [[e [Hfail ->]]|[body [json [Hfetch ->]]]].
    + unfold loaded at 1. rewrite (normalizer_failure_truthy _ _ _ Hfail).
      apply Phase_fetch_failed; assumption.
    + unfold loaded at 1. cbn [truthy]. unfold verify_run.
      destruct (_verify _ _ _ _ _) as [verr user info|e] eqn:Hverify.
      * apply (Phase_verified _ _ _ _ _ body json verr user info); assumption.
      * cbn [try_catch].
        replace (let '(t', r) := loaded self req accessToken refreshToken e VUndefined in _)
          with (after [CallVerify (forwarded self req) accessToken refreshToken
                         (normalized body json)]
                  (loaded self req accessToken refreshToken e VUndefined))
          by (unfold after; destruct (loaded _ _ _ _ _ _); reflexivity).
        rewrite (after_after [_] [_]); cbn [app].
        apply (Phase_verify_raised _ _ _ _ _ body json e); assumption.
Qed.

(** Every run of [authenticate] is a run of the state machine. *)
Lemma authenticate_attempt (self : strategy) (req : request) (options : value) :
  attempt JSON_parse self req (authenticate JSON_parse self req options).
Proof.
  destruct (authenticate_cases self req options)
    as [->|[->|[authCode [redirectUri [_ [_ [Hcode [Huri [_ ->]]]]]]]]].
  - apply Attempt_rejected.
  - apply Attempt_threw.
  - destruct (getOAuthAccessToken (_oauth2 self) authCode (exchange_params redirectUri))
      as [[[err accessToken] refreshToken] resultsJson] eqn:Hresp.
    rewrite (exchange_run _ _ _ _ _ _ _ _ Hresp).
    destruct (truthy err) eqn:Herr.
    + unfold exchanged. rewrite Herr.
      eapply Attempt_exchange_failed; eassumption.
    + eapply Attempt_exchanged; try eassumption.
      apply exchanged_phase; assumption.
Qed.

Lemma normalizer_fails_unique (self : strategy) (accessToken e e' : value) :
  normalizer_fails JSON_parse self accessToken e ->
  normalizer_fails JSON_parse self accessToken e' -> e = e'.
Proof.
  unfold normalizer_fails. destruct (get _ _ _) as [[err body] res].
  intros [[H1 ->]|[[H1 H2]|[H1 [-> [j [H2 H3]]]]]]
         [[H1' ->]|[[H1' H2']|[H1' [-> [j' [H2' H3']]]]]]; congruence.
Qed.

Lemma fetched_not_failed (self : strategy) (accessToken body json e : value) :
  fetched JSON_parse self accessToken body json ->
  normalizer_fails JSON_parse self accessToken e -> False.
Proof.
  unfold fetched, normalizer_fails. intros [err [res [-> [H1 [H2 H3]]]]].
  intros [[H1' _]|[[_ H2']|[_ [_ [j [H2' H3']]]]]]; congruence.
Qed.

(** Case analysis of a run of [authenticate] down to explicit traces. *)
Ltac run_cases self req options :=
  let H := fresh "Hrun" in
  pose proof (authenticate_attempt self req options) as H;
  destruct H as [ | | ? ? ? ? ? ? ? ? ? ?
                | ? ? ? ? ? ? ? ? ? ? ? [ | | | | ] ].

Ltac explicit_step :=
  match goal with
  | |- context [match ?x with _ => _ end] =>
      lazymatch x with
      | context [match _ with _ => _ end] => fail
      | _ => destruct x eqn:?
      end
  end.

Ltac explicit :=
  unfold after, trace, skip_call, loaded, verify_run, outcome,
    signals, verify_calls, get_calls, exchange_calls, skip_calls;
  repeat (cbn [fst snd app filter In is_signal is_verify is_get is_exchange
                 is_skip];
          try explicit_step).

Ltac tidy_step :=
  match goal with
  | H : SkipValue _ = SkipFunction _ _ _ |- _ => discriminate H
  | H : SkipFunction _ _ _ = SkipValue _ |- _ => discriminate H
  | H : SkipFunction _ _ _ = SkipFunction _ _ _ |- _ =>
      injection H as; subst
  | H : SkipValue _ = SkipValue _ |- _ => injection H as; subst
  | H : SkipFailed _ = SkipFailed _ |- _ => injection H as; subst
  | H : Decided _ = Decided _ |- _ => injection H as H
  | H : SkipFailed _ = Decided _ |- _ => discriminate H
  | H : Decided _ = SkipFailed _ |- _ => discriminate H
  | H : Completes _ _ _ = Completes _ _ _ |- _ => injection H as; subst
  | H : Completes _ _ _ = Raises _ |- _ => discriminate H
  | H : Raises _ = Completes _ _ _ |- _ => discriminate H
  | H : Raises _ = Raises _ |- _ => injection H as; subst
  | H : (_, _) = (_, _) |- _ => injection H as; subst
  | H : ?a = (_, _), H' : ?a = (_, _) |- _ => rewrite H in H'
  | H : _skipUserProfile ?s = _, H' : _skipUserProfile ?s = _ |- _ =>
      rewrite H in H'
  | H : _verify ?s ?r ?a ?t ?p = _, H' : _verify ?s ?r ?a ?t ?p = _ |- _ =>
      rewrite H in H'
  | H : ?b = true, H' : ?b = false |- _ => rewrite H in H'; discriminate H'
  | H : true = false |- _ => discriminate H
  | H : false = true |- _ => discriminate H
  | H : context [decide_skip] |- _ => unfold decide_skip in H
  | H : match ?x with _ => _ end = _ |- _ =>
      lazymatch x with
      | context [match _ with _ => _ end] => fail
      | _ => destruct x eqn:?
      end
  end.

Ltac tidy := repeat tidy_step.

Ltac member H :=
  repeat (destruct H as [H|H]); try contradiction; try discriminate H;
  try (inversion H; clear H; subst).

(** C1, as the code has it.  In every attempt that fetches the profile
    and in which the Profile Normalizer fails with [e] (the GET fails,
    or the body does not parse, or it parses to [null]), the only
    terminal signal is [fail(e)], not [error(e)], and the verify
    callback is never called. *)
Theorem profile_failure_signals_fail :
  forall (self : strategy) (req : request) (options accessToken e : value),
    In (CallGet profile_url accessToken)
       (trace (authenticate JSON_parse self req options)) ->
    normalizer_fails JSON_parse self accessToken e ->
    signals (trace (authenticate JSON_parse self req options)) = [SigFail [e]]
    /\ verify_calls (trace (authenticate JSON_parse self req options)) = [].
Proof.
  intros self req options accessToken e.
  run_cases self req options; explicit; intros Hin Hfail; member Hin;
    try (exfalso; eapply fetched_not_failed; eassumption);
    match goal with
    | H : normalizer_fails _ _ _ ?e' |- _ =>
        rewrite (normalizer_fails_unique _ _ _ _ H Hfail)
    end; split; reflexivity.
Qed.

Lemma authenticate_valid (self : strategy) (req : request)
    (options authCode redirectUri : value) :
  ~ has_error_indicator req -> has_body req ->
  extracted req "code" authCode ->
  extracted req "redirectUri" redirectUri ->
  truthy authCode = true ->
  authenticate JSON_parse self req options
  = _exchangeAuthCode self authCode redirectUri (exchanged JSON_parse self req).
Proof.
  intros Hind Hbody Hcode Huri Hauth.
  rewrite authenticate_unfold.
  destruct (indicator_check req) as [c [-> Hc]].
  apply extraction in Hcode, Huri. rewrite Hcode, Huri.
  cbn [bind lift app].
  destruct (truthy c); [exfalso; tauto|].
  unfold has_body in Hbody. rewrite Hbody, Hauth. cbn [negb].
  destruct (_exchangeAuthCode _ _ _ _); reflexivity.
Qed.

(** C2, as the code has it.  In every attempt that exchanged its code
    and whose skip setting is a function declaring more than one
    parameter, that function is called, once, with the access token
    (and a callback); if it completes the callback with an error, the
    only terminal signal is [fail] carrying that error, not [error],
    and neither the profile fetch nor the verify callback is called. *)
Theorem async_skip_error_signals_fail :
  forall (self : strategy) (req : request) (options : value)
         (length : nat) (returns : value) (completes : value -> value * value)
         (authCode params err accessToken refreshToken resultsJson : value),
    _skipUserProfile self = SkipFunction length returns completes ->
    (1 < length)%nat ->
    In (CallExchange authCode params)
       (trace (authenticate JSON_parse self req options)) ->
    getOAuthAccessToken (_oauth2 self) authCode params
    = (err, accessToken, refreshToken, resultsJson) ->
    truthy err = false ->
    skip_calls (trace (authenticate JSON_parse self req options))
    = [CallSkipAsync accessToken]
    /\ forall skip_err skip,
         completes accessToken = (skip_err, skip) ->
         truthy skip_err = true ->
         signals (trace (authenticate JSON_parse self req options))
         = [SigFail [skip_err]]
         /\ get_calls (trace (authenticate JSON_parse self req options)) = []
         /\ verify_calls (trace (authenticate JSON_parse self req options)) = [].
Proof.
  intros self req options n returns completes authCode params
         err accessToken refreshToken resultsJson Hset Hn.
  apply Nat.ltb_lt in Hn.
  run_cases self req options; explicit; intros Hin Hresp Herr; member Hin; tidy;
    (split; [reflexivity|]); intros skip_err skip Hc Ht; tidy;
    repeat split; reflexivity.
Qed.

(** C3.  When the verify callback completes with [(err, user, info)],
    the attempt signals [error(err)] if [err] is present, [fail(info)]
    if [err] is absent and [user] is falsy, and [success(user, info)]
    otherwise; it is the only terminal signal of the attempt. *)
Theorem verification_result_mapping :
  forall (self : strategy) (req : request) (options : value)
         (r : option request) (accessToken refreshToken profile : value)
         (err user info : value),
    In (CallVerify r accessToken refreshToken profile)
       (trace (authenticate JSON_parse self req options)) ->
    _verify self r accessToken refreshToken profile = Completes err user info ->
    (truthy err = true ->
     signals (trace (authenticate JSON_parse self req options)) = [SigError err])
    /\ (truthy err = false -> truthy user = false ->
        signals (trace (authenticate JSON_parse self req options))
        = [SigFail [info]])
    /\ (truthy err = false -> truthy user = true ->
        signals (trace (authenticate JSON_parse self req options))
        = [SigSuccess user info]).
Proof.
  intros self req options r accessToken refreshToken profile err user info.
  run_cases self req options; explicit; intros Hin Hverify; member Hin; tidy;
    repeat split; intros; tidy; reflexivity.
Qed.

(** C4.  An attempt that passes validation calls the token exchange,
    once, with the extracted code and the parameters
    [{grant_type: 'authorization_code', redirect_uri: redirectUri}];
    if the exchange fails with [err], the attempt ends there with
    [fail(err)]. *)
Theorem exchange_invocation_and_failure :
  forall (self : strategy) (req : request) (options authCode redirectUri : value),
    ~ has_error_indicator req -> has_body req ->
    extracted req "code" authCode ->
    extracted req "redirectUri" redirectUri ->
    truthy authCode = true ->
    exchange_calls (trace (authenticate JSON_parse self req options))
    = [CallExchange authCode
         (VObj [("grant_type", VStr "authorization_code");
                ("redirect_uri", redirectUri)])]
    /\ forall err accessToken refreshToken resultsJson,
         getOAuthAccessToken (_oauth2 self) authCode
           (VObj [("grant_type", VStr "authorization_code");
                  ("redirect_uri", redirectUri)])
         = (err, accessToken, refreshToken, resultsJson) ->
         truthy err = true ->
         authenticate JSON_parse self req options
         = ([CallExchange authCode
               (VObj [("grant_type", VStr "authorization_code");
                      ("redirect_uri", redirectUri)]);
             SigFail [err]], Ok tt).
Proof.
  intros self req options authCode redirectUri Hind Hbody Hcode Huri Hauth.
  rewrite (authenticate_valid self req options authCode redirectUri)
    by assumption.
  fold (exchange_params redirectUri).
  destruct (getOAuthAccessToken (_oauth2 self) authCode (exchange_params redirectUri))
    as [[[err accessToken] refreshToken] resultsJson] eqn:Hresp.
  rewrite (exchange_run _ _ _ _ _ _ _ _ Hresp).
  split.
  - destruct (truthy err) eqn:Herr.
    + unfold exchanged. rewrite Herr. reflexivity.
    + destruct (exchanged_phase self req err accessToken refreshToken resultsJson Herr);
        explicit; reflexivity.
  - intros err' accessToken' refreshToken' resultsJson' Heq Herr.
    injection Heq as; subst.
    unfold exchanged. rewrite Herr. reflexivity.
Qed.

(** C6, as the code has it.  A profile passed to the verify callback is
    either [undefined] (skipped) or the profile built from a parsed
    response: its [provider] is ['facebook'] and its [id] is whatever
    the response has as [id], which is [undefined] when it has none.
    An attempt whose token exchange failed fetches no profile and
    calls no verify callback. *)
Theorem profile_passed_to_verification :
  forall (self : strategy) (req : request) (options : value),
    (forall r accessToken refreshToken profile,
       In (CallVerify r accessToken refreshToken profile)
          (trace (authenticate JSON_parse self req options)) ->
       profile = VUndefined
       \/ exists body json,
            fetched JSON_parse self accessToken body json
            /\ profile = normalized body json
            /\ getp profile "provider" = Ok (VStr "facebook")
            /\ getp profile "id" = getp json "id")
    /\ (forall authCode params err accessToken refreshToken resultsJson,
          In (CallExchange authCode params)
             (trace (authenticate JSON_parse self req options)) ->
          getOAuthAccessToken (_oauth2 self) authCode params
          = (err, accessToken, refreshToken, resultsJson) ->
          truthy err = true ->
          get_calls (trace (authenticate JSON_parse self req options)) = []
          /\ verify_calls (trace (authenticate JSON_parse self req options)) = []).
Proof.
  intros self req options.
  assert (Hid : forall body json,
             nullish json = false ->
             getp (normalized body json) "id" = getp json "id").
  { intros body json Hnull. rewrite (getp_field json "id" Hnull). reflexivity. }
  split.
  - intros r accessToken refreshToken profile.
    run_cases self req options; explicit; intros Hin; member Hin;
      try (left; reflexivity);
      right; match goal with
             | H : fetched _ _ _ ?body ?json |- _ =>
                 exists body, json; repeat split;
                   [exact H | apply Hid; destruct H as [? [? [_ [_ [_ H]]]]]; exact H]
             end.
  - intros authCode params err accessToken refreshToken resultsJson.
    run_cases self req options; explicit; intros Hin Hresp Herr; member Hin; tidy;
      split; reflexivity.
Qed.

(** C7.  A request whose query carries an error indicator, and a
    request without a body, end in [fail()] at once: the run is that
    single signal, with no token exchange and no profile fetch. *)
Theorem invalid_request_fails_immediately :
  forall (self : strategy) (req : request) (options : value),
    has_error_indicator req \/ ~ has_body req ->
    authenticate JSON_parse self req options = ([SigFail []], Ok tt)
    /\ exchange_calls (trace (authenticate JSON_parse self req options)) = []
    /\ get_calls (trace (authenticate JSON_parse self req options)) = [].
Proof.
  intros self req options Hinvalid.
  assert (Hrun : authenticate JSON_parse self req options = ([SigFail []], Ok tt)).
  { rewrite authenticate_unfold.
    destruct (indicator_check req) as [c [-> Hc]].
    cbn [bind lift app].
    destruct (truthy c) eqn:Htc; [reflexivity|].
    destruct Hinvalid as [Hind|Hbody].
    - apply Hc in Hind. discriminate.
    - unfold has_body in Hbody.
      destruct (truthy (body req)); [exfalso; auto|reflexivity]. }
  rewrite Hrun. repeat split.
Qed.

(** C8, at the input where the code misses it.  A request with a body
    that has no code and with no query object passes both checks, and
    neither source provides a code; the attempt signals nothing and
    throws a TypeError from [req.query.code]. *)
Theorem unguarded_query_read_throws :
  forall (self : strategy) (options : value),
    ~ has_error_indicator Samples.no_query_request
    /\ has_body Samples.no_query_request
    /\ getp (body Samples.no_query_request) "code" = Ok VUndefined
    /\ authenticate JSON_parse self Samples.no_query_request options
       = ([], Throw TypeError).
Proof.
  intros self options.
  split; [intros [e [He _]]; discriminate He|].
  split; [reflexivity|].
  split; [reflexivity|].
  rewrite authenticate_unfold. reflexivity.
Qed.

(** C9.  After a successful exchange, when the skip setting is the
    boolean [true], or a function of at most one parameter that
    returns [true] (called with no argument), or a function of two
    parameters that completes its callback with [(null, true)], the
    identity endpoint is not fetched and the verify callback receives
    [undefined] as the profile. *)
Theorem skipped_profile_is_undefined :
  forall (self : strategy) (req : request) (options : value)
         (authCode params err accessToken refreshToken resultsJson : value),
    In (CallExchange authCode params)
       (trace (authenticate JSON_parse self req options)) ->
    getOAuthAccessToken (_oauth2 self) authCode params
    = (err, accessToken, refreshToken, resultsJson) ->
    truthy err = false ->
    let run := authenticate JSON_parse self req options in
    let skipped :=
      get_calls (trace run) = []
      /\ verify_calls (trace run)
         = [CallVerify (forwarded self req) accessToken refreshToken VUndefined] in
    (_skipUserProfile self = SkipValue (VBool true) ->
     skip_calls (trace run) = [] /\ skipped)
    /\ (forall length returns completes,
          _skipUserProfile self = SkipFunction length returns completes ->
          (length <= 1)%nat -> returns = VBool true ->
          skip_calls (trace run) = [CallSkipSync] /\ skipped)
    /\ (forall returns completes,
          _skipUserProfile self = SkipFunction 2 returns completes ->
          completes accessToken = (VNull, VBool true) ->
          skip_calls (trace run) = [CallSkipAsync accessToken] /\ skipped).
Proof.
  intros self req options authCode params err accessToken refreshToken resultsJson.
  cbv zeta.
  run_cases self req options; explicit; intros Hin Hresp Herr; member Hin; tidy;
    (split; [|split]).
  all: try (intros Hset; tidy; cbn [truthy] in *; tidy; repeat split; reflexivity).
  all: try (intros ? ? ? Hset Hn ->;
            match type of Hn with
            | (?n <= 1)%nat =>
                assert (Hlt : (1 <? n)%nat = false) by (apply Nat.ltb_ge; lia)
            end;
            tidy; cbn [truthy] in *; tidy; repeat split; reflexivity).
  all: intros ? ? Hset Hc; tidy; cbn [truthy Nat.ltb Nat.leb] in *;
    tidy; repeat split; reflexivity.
Qed.

(** C10.  For a request with a body that provides no code: when the
    query object is absent, [authenticate] throws a TypeError and
    signals nothing; when the query object exists and provides no code
    either, the attempt ends in [fail()]. *)
Theorem missing_query_throws :
  forall (self : strategy) (req : request) (options : value),
    (forall code,
       has_body req -> nullish (query req) = true ->
       getp (body req) "code" = Ok code -> truthy code = false ->
       authenticate JSON_parse self req options = ([], Throw TypeError))
    /\ (forall code,
          ~ has_error_indicator req -> has_body req ->
          nullish (query req) = false ->
          extracted req "code" code -> truthy code = false ->
          authenticate JSON_parse self req options = ([SigFail []], Ok tt)).
Proof.
  intros self req options. split.
  - intros code Hbody Hq Hcode Hfalsy. unfold has_body in Hbody.
    rewrite authenticate_unfold. unfold js_and, js_or, rbind.
    rewrite Hcode, Hfalsy.
    destruct (query req); try discriminate Hq; cbn; rewrite Hbody; reflexivity.
  - intros code Hind Hbody Hq Hcode Hfalsy.
    rewrite authenticate_unfold.
    destruct (indicator_check req) as [c [-> Hc]].
    apply extraction in Hcode. rewrite Hcode.
    cbn [bind lift app].
    destruct (truthy c); [exfalso; tauto|].
    unfold has_body in Hbody. rewrite Hbody. cbn [negb].
    unfold js_or, rbind.
    rewrite (getp_truthy _ "redirectUri" Hbody), (getp_field _ "redirectUri" Hq).
    destruct (truthy (field (body req) "redirectUri"));
      cbn [bind lift app]; rewrite Hfalsy; reflexivity.
Qed.

(** *** The shape of every attempt *)


(** X2.  The collaborators are called in a fixed order (exchange, skip
    predicate, profile fetch, verify callback, terminal signal); the
    exchange, the skip predicate and the profile fetch are called at
    most once, the verify callback at most twice. *)
Theorem calls_in_order :
  forall (self : strategy) (req : request) (options : value),
    in_order (trace (authenticate JSON_parse self req options)) = true
    /\ (List.length (exchange_calls (trace (authenticate JSON_parse self req options))) <= 1)%nat
    /\ (List.length (skip_calls (trace (authenticate JSON_parse self req options))) <= 1)%nat
    /\ (List.length (get_calls (trace (authenticate JSON_parse self req options))) <= 1)%nat
    /\ (List.length (verify_calls (trace (authenticate JSON_parse self req options))) <= 2)%nat.
Proof.
  intros self req options.
  run_cases self req options; explicit; cbn; repeat split; lia.
Qed.

(** X3.  The tokens of the exchange are the ones used afterwards: the
    profile is fetched from the fixed identity endpoint with the access
    token the exchange returned, and the verify callback receives that
    access token and that refresh token. *)
Theorem tokens_are_those_of_the_exchange :
  forall (self : strategy) (req : request) (options : value)
         (authCode params err accessToken refreshToken resultsJson : value),
    In (CallExchange authCode params)
       (trace (authenticate JSON_parse self req options)) ->
    getOAuthAccessToken (_oauth2 self) authCode params
    = (err, accessToken, refreshToken, resultsJson) ->
    (forall url token,
       In (CallGet url token) (trace (authenticate JSON_parse self req options)) ->
       url = "https://graph.facebook.com/v2.2/me" /\ token = accessToken)
    /\ (forall r access refresh profile,
          In (CallVerify r access refresh profile)
             (trace (authenticate JSON_parse self req options)) ->
          access = accessToken /\ refresh = refreshToken).
Proof.
  intros self req options authCode params err accessToken refreshToken resultsJson.
  run_cases self req options; explicit; intros Hin Hresp; member Hin; tidy;
    (split; [intros url token Hget; member Hget
            |intros r access refresh profile Hverify; member Hverify]);
    split; reflexivity.
Qed.

(** X4.  The verify callback is given the request as its first argument
    exactly when the strategy was configured with a truthy
    [passReqToCallback], and then it is the request of the attempt. *)
Theorem request_forwarded_on_demand :
  forall (self : strategy) (req : request) (options : value)
         (r : option request) (accessToken refreshToken profile : value),
    In (CallVerify r accessToken refreshToken profile)
       (trace (authenticate JSON_parse self req options)) ->
    r = if truthy (_passReqToCallback self) then Some req else None.
Proof.
  intros self req options r accessToken refreshToken profile.
  fold (forwarded self req).
  run_cases self req options; explicit; intros Hin; member Hin; reflexivity.
Qed.

(** *** Where each terminal signal comes from *)

(** X5.  Success is signalled only for a user the verify callback accepted:
    the callback completed without error and with that truthy user and
    that info, after a token exchange that succeeded. *)
Theorem success_requires_acceptance :
  forall (self : strategy) (req : request) (options user info : value),
    In (SigSuccess user info)
       (trace (authenticate JSON_parse self req options)) ->
    (exists r accessToken refreshToken profile err,
       In (CallVerify r accessToken refreshToken profile)
          (trace (authenticate JSON_parse self req options))
       /\ _verify self r accessToken refreshToken profile = Completes err user info
       /\ truthy err = false /\ truthy user = true)
    /\ (exists authCode params err accessToken refreshToken resultsJson,
          In (CallExchange authCode params)
             (trace (authenticate JSON_parse self req options))
          /\ getOAuthAccessToken (_oauth2 self) authCode params
             = (err, accessToken, refreshToken, resultsJson)
          /\ truthy err = false).
Proof.
  intros self req options user info.
  run_cases self req options; explicit; intros Hin; member Hin;
    (split;
     [ do 5 eexists; split; [cbn; eauto 8|]; split; [eassumption|];
       split; assumption
     | do 6 eexists; split; [left; reflexivity|]; split; eassumption ]).
Qed.

(** X6.  The strategy signals [error] for no failure of its own: an error
    signal is always the error the verify callback completed with. *)
Theorem error_only_from_verification :
  forall (self : strategy) (req : request) (options e : value),
    In (SigError e) (trace (authenticate JSON_parse self req options)) ->
    exists r accessToken refreshToken profile user info,
      In (CallVerify r accessToken refreshToken profile)
         (trace (authenticate JSON_parse self req options))
      /\ _verify self r accessToken refreshToken profile = Completes e user info
      /\ truthy e = true.
Proof.
  intros self req options e.
  run_cases self req options; explicit; intros Hin; member Hin;
    (do 6 eexists; split; [cbn; eauto 8|]; split; eassumption).
Qed.

(** *** Exceptions of the verify callback *)

(** X7.  An exception that the verify callback throws when it is given a
    loaded profile does not escape: [userProfile] catches it, and when
    it is truthy the attempt ends in [fail] carrying it.  When it is
    falsy, the verify callback is called a second time, without a
    profile. *)
Theorem verify_exception_with_profile :
  forall (self : strategy) (req : request) (options : value)
         (r : option request) (accessToken refreshToken profile e : value),
    In (CallVerify r accessToken refreshToken profile)
       (trace (authenticate JSON_parse self req options)) ->
    profile <> VUndefined ->
    _verify self r accessToken refreshToken profile = Raises e ->
    (truthy e = true ->
     snd (authenticate JSON_parse self req options) = Ok tt
     /\ signals (trace (authenticate JSON_parse self req options)) = [SigFail [e]]
     /\ verify_calls (trace (authenticate JSON_parse self req options))
        = [CallVerify r accessToken refreshToken profile])
    /\ (truthy e = false ->
        verify_calls (trace (authenticate JSON_parse self req options))
        = [CallVerify r accessToken refreshToken profile;
           CallVerify r accessToken refreshToken VUndefined]).
Proof.
  intros self req options r accessToken refreshToken profile e.
  run_cases self req options; explicit; intros Hin Hprofile Hraises; member Hin;
    try (exfalso; apply Hprofile; reflexivity); tidy;
    (split; intros He; tidy; repeat split; reflexivity).
Qed.

(** X8.  An exception that the verify callback throws when it is given no
    profile escapes from the strategy, which then signals nothing. *)
Theorem verify_exception_without_profile :
  forall (self : strategy) (req : request) (options : value)
         (r : option request) (accessToken refreshToken e : value),
    In (CallVerify r accessToken refreshToken VUndefined)
       (trace (authenticate JSON_parse self req options)) ->
    _verify self r accessToken refreshToken VUndefined = Raises e ->
    snd (authenticate JSON_parse self req options) = Throw e
    /\ signals (trace (authenticate JSON_parse self req options)) = [].
Proof.
  intros self req options r accessToken refreshToken e.
  run_cases self req options; explicit; intros Hin Hraises; member Hin; tidy;
    split; reflexivity.
Qed.

(** *** The skip decision *)

(** X9.  Unless the skip setting asks for a skip, the profile is fetched,
    once, with the access token of the exchange: for a setting that is
    a falsy value (the default), a function of at most one parameter
    that returns a falsy value, or a function of more parameters that
    completes without error and with a falsy value. *)
Theorem profile_loaded_unless_skipped :
  forall (self : strategy) (req : request) (options : value)
         (authCode params err accessToken refreshToken resultsJson : value),
    In (CallExchange authCode params)
       (trace (authenticate JSON_parse self req options)) ->
    getOAuthAccessToken (_oauth2 self) authCode params
    = (err, accessToken, refreshToken, resultsJson) ->
    truthy err = false ->
    (forall v,
       _skipUserProfile self = SkipValue v -> truthy v = false ->
       skip_calls (trace (authenticate JSON_parse self req options)) = []
       /\ get_calls (trace (authenticate JSON_parse self req options))
          = [CallGet "https://graph.facebook.com/v2.2/me" accessToken])
    /\ (forall length returns completes,
          _skipUserProfile self = SkipFunction length returns completes ->
          (length <= 1)%nat -> truthy returns = false ->
          skip_calls (trace (authenticate JSON_parse self req options))
          = [CallSkipSync]
          /\ get_calls (trace (authenticate JSON_parse self req options))
             = [CallGet "https://graph.facebook.com/v2.2/me" accessToken])
    /\ (forall length returns completes skip_err skip,
          _skipUserProfile self = SkipFunction length returns completes ->
          (1 < length)%nat ->
          completes accessToken = (skip_err, skip) ->
          truthy skip_err = false -> truthy skip = false ->
          skip_calls (trace (authenticate JSON_parse self req options))
          = [CallSkipAsync accessToken]
          /\ get_calls (trace (authenticate JSON_parse self req options))
             = [CallGet "https://graph.facebook.com/v2.2/me" accessToken]).
Proof.
  intros self req options authCode params err accessToken refreshToken resultsJson.
  run_cases self req options; explicit; intros Hin Hresp Herr; member Hin; tidy;
    (split; [|split]).
  all: try (intros ? Hset Hv; tidy; split; reflexivity).
  all: try (intros ? ? ? Hset Hn Hv;
            match type of Hn with
            | (?n <= 1)%nat =>
                assert (Hlt : (1 <? n)%nat = false) by (apply Nat.ltb_ge; lia)
            end;
            tidy; split; reflexivity).
  all: intros ? ? ? ? ? Hset Hn Hc He Hs; apply Nat.ltb_lt in Hn;
    tidy; split; reflexivity.
Qed.

(** *** Where the code and the redirect URI are read *)

Lemma exchanged_makes_no_exchange (self : strategy) (req : request)
    (err accessToken refreshToken resultsJson : value) :
  exchange_calls
    (trace (exchanged JSON_parse self req err accessToken refreshToken resultsJson))
  = [].
Proof.
  destruct (truthy err) eqn:Herr.
  - unfold exchanged. rewrite Herr. reflexivity.
  - destruct (exchanged_phase self req err accessToken refreshToken resultsJson Herr);
      explicit; reflexivity.
Qed.

Lemma valid_request_exchanges (self : strategy) (req : request)
    (options authCode redirectUri : value) :
  ~ has_error_indicator req -> has_body req ->
  extracted req "code" authCode ->
  extracted req "redirectUri" redirectUri ->
  truthy authCode = true ->
  exchange_calls (trace (authenticate JSON_parse self req options))
  = [CallExchange authCode (exchange_params redirectUri)].
Proof.
  intros Hind Hbody Hcode Huri Hauth.
  rewrite (authenticate_valid self req options authCode redirectUri)
    by assumption.
  destruct (getOAuthAccessToken (_oauth2 self) authCode (exchange_params redirectUri))
    as [[[err accessToken] refreshToken] resultsJson] eqn:Hresp.
  rewrite (exchange_run _ _ _ _ _ _ _ _ Hresp).
  unfold after, trace, exchange_calls. cbn [fst app filter is_exchange].
  f_equal. apply exchanged_makes_no_exchange.
Qed.

Lemma truthy_field_has_body (o v : value) (k : string) :
  getp o k = Ok v -> truthy v = true -> truthy o = true.
Proof.
  destruct o; cbn; try reflexivity; intros H Hv; try discriminate H;
    inversion H; subst; discriminate Hv.
Qed.

(** X10.  A request whose body holds both a code and a redirect URI needs
    nothing else: the exchange is called with the two, whatever the
    query holds and even when there is no query object. *)
Theorem body_fields_win :
  forall (self : strategy) (req : request) (options code uri : value),
    ~ has_error_indicator req ->
    getp (body req) "code" = Ok code -> truthy code = true ->
    getp (body req) "redirectUri" = Ok uri -> truthy uri = true ->
    exchange_calls (trace (authenticate JSON_parse self req options))
    = [CallExchange code
         (VObj [("grant_type", VStr "authorization_code");
                ("redirect_uri", uri)])].
Proof.
  intros self req options code uri Hind Hcode Hc Huri Hu.
  apply valid_request_exchanges; try assumption.
  - exact (truthy_field_has_body _ _ _ Hcode Hc).
  - exists code. rewrite Hc. split; [assumption|reflexivity].
  - exists uri. rewrite Hu. split; [assumption|reflexivity].
Qed.

(** X11.  The query is the fallback, field by field: when the body has no
    code and the query has one, the exchange is called with the code
    of the query, and with the redirect URI of the body if it has one,
    of the query otherwise. *)
Theorem query_fields_are_the_fallback :
  forall (self : strategy) (req : request) (options : value)
         (body_code code body_uri query_uri : value),
    ~ has_error_indicator req -> has_body req ->
    getp (body req) "code" = Ok body_code -> truthy body_code = false ->
    getp (query req) "code" = Ok code -> truthy code = true ->
    getp (body req) "redirectUri" = Ok body_uri ->
    getp (query req) "redirectUri" = Ok query_uri ->
    exchange_calls (trace (authenticate JSON_parse self req options))
    = [CallExchange code
         (VObj [("grant_type", VStr "authorization_code");
                ("redirect_uri", if truthy body_uri then body_uri else query_uri)])].
Proof.
  intros self req options body_code code body_uri query_uri
         Hind Hbody Hbc Hfalsy Hqc Hc Hbu Hqu.
  apply valid_request_exchanges; try assumption.
  - exists body_code. rewrite Hfalsy. split; assumption.
  - exists body_uri. split; [assumption|].
    destruct (truthy body_uri); [reflexivity|assumption].
Qed.

(** X12.  The redirect URI is read like the code, without a guard: a request
    with a code in its body, no redirect URI in its body and no query
    object makes [authenticate] throw a TypeError, before any exchange
    and without a terminal signal. *)
Theorem redirect_uri_read_throws :
  forall (self : strategy) (req : request) (options code uri : value),
    nullish (query req) = true ->
    getp (body req) "code" = Ok code -> truthy code = true ->
    getp (body req) "redirectUri" = Ok uri -> truthy uri = false ->
    authenticate JSON_parse self req options = ([], Throw TypeError).
Proof.
  intros self req options code uri Hq Hcode Hc Huri Hu.
  pose proof (truthy_field_has_body _ _ _ Hcode Hc) as Hbody.
  rewrite authenticate_unfold. unfold js_and, js_or, rbind.
  rewrite Hcode, Hc, Huri, Hu.
  destruct (query req); try discriminate Hq; cbn; rewrite Hbody; reflexivity.
Qed.

(** *** The Profile Normalizer and its callback *)

Lemma try_catch_returns {A} (m : M A) (handler : value -> M A) (a : A) :
  snd m = Ok a -> try_catch m handler = m.
Proof. destruct m as [t [a'|e]]; cbn; [reflexivity|discriminate]. Qed.

(** X13.  [userProfile] fetches the identity endpoint once and then calls a
    callback that returns exactly once, either with a truthy error and
    no profile, or with [null] and a profile, never with both. *)
Theorem profile_callback_contract :
  forall (self : strategy) (accessToken : value)
         (done : value -> value -> M unit),
    (forall err profile, snd (done err profile) = Ok tt) ->
    exists err profile,
      userProfile JSON_parse self accessToken done
      = after [CallGet "https://graph.facebook.com/v2.2/me" accessToken]
              (done err profile)
      /\ ((truthy err = true /\ profile = VUndefined)
          \/ (err = VNull /\ truthy profile = true)).
Proof.
  intros self accessToken done Hdone.
  destruct (profile_cases self accessToken done)
    as [[e [Hfail Hrun]]|[body [json [Hfetch Hrun]]]].
  - exists e, VUndefined. split; [exact Hrun|].
    left. split; [|reflexivity].
    exact (normalizer_failure_truthy _ _ _ Hfail).
  - exists VNull, (normalized body json). split.
    + rewrite Hrun. rewrite (try_catch_returns _ _ tt); [reflexivity|apply Hdone].
    + right. split; reflexivity.
Qed.

(** X14.  The call of the callback is inside the [try] block: when the
    callback throws on the profile it is given, it is called a second
    time, with what it threw as the error. *)
Theorem profile_callback_called_again :
  forall (self : strategy) (accessToken body json x : value)
         (done : value -> value -> M unit) (t : list event),
    fetched JSON_parse self accessToken body json ->
    (forall profile, truthy profile = true -> done VNull profile = (t, Throw x)) ->
    userProfile JSON_parse self accessToken done
    = after (CallGet "https://graph.facebook.com/v2.2/me" accessToken :: t)
            (done x VUndefined).
Proof.
  intros self accessToken body json x done t Hfetch Hthrows.
  destruct (profile_cases self accessToken done)
    as [[e [Hfail _]]|[body' [json' [_ Hrun]]]].
  - exfalso. exact (fetched_not_failed _ _ _ _ _ Hfetch Hfail).
  - rewrite Hrun, (Hthrows (normalized body' json') eq_refl).
    unfold try_catch, after. cbn [fst snd app].
    destruct (done x VUndefined); reflexivity.
Qed.

(** X15.  The profile built from a response that parsed to [json]: the
    provider is fixed, [id], [displayName] and the two parts of [name]
    are the [id], [name], [family_name] and [given_name] of the
    response, [emails] has exactly one entry, the [email] of the
    response, and the body and the parsed response are attached as
    [_raw] and [_json].  A field the response lacks is [undefined]. *)
Theorem profile_field_mapping :
  forall (self : strategy) (accessToken body json : value)
         (done : value -> value -> M unit),
    fetched JSON_parse self accessToken body json ->
    exists profile family given email,
      userProfile JSON_parse self accessToken done
      = after [CallGet "https://graph.facebook.com/v2.2/me" accessToken]
              (try_catch (done VNull profile) (fun e => done e VUndefined))
      /\ getp profile "provider" = Ok (VStr "facebook")
      /\ getp profile "id" = getp json "id"
      /\ getp profile "displayName" = getp json "name"
      /\ getp json "family_name" = Ok family
      /\ getp json "given_name" = Ok given
      /\ getp profile "name"
         = Ok (VObj [("familyName", family); ("givenName", given)])
      /\ getp json "email" = Ok email
      /\ getp profile "emails" = Ok (VArr [VObj [("value", email)]])
      /\ getp profile "_raw" = Ok body
      /\ getp profile "_json" = Ok json.
Proof.
  intros self accessToken body json done Hfetch.
  destruct (profile_cases self accessToken done)
    as [[e [Hfail _]]|[body' [json' [Hfetch' Hrun]]]].
  - exfalso. exact (fetched_not_failed _ _ _ _ _ Hfetch Hfail).
  - assert (body' = body /\ json' = json) as [-> ->].
    { destruct Hfetch as [err [res [Hget [_ [Hparse _]]]]].
      destruct Hfetch' as [err' [res' [Hget' [_ [Hparse' _]]]]].
      rewrite Hget in Hget'. injection Hget' as; subst.
      rewrite Hparse in Hparse'. injection Hparse' as; subst. split; reflexivity. }
    assert (Hnull : nullish json = false)
      by (destruct Hfetch as [? [? [_ [_ [_ H]]]]]; exact H).
    exists (normalized body json), (field json "family_name"),
      (field json "given_name"), (field json "email").
    rewrite !(getp_field json _ Hnull).
    repeat split; try reflexivity. exact Hrun.
Qed.

End Properties.

(** ** The executable parser and the sample attempts *)

Import Samples.

Lemma builtin_raises_errors : raises_errors JSON_parse.
Proof.
  intros text e. unfold JSON_parse, parse_text.
  destruct (parse_value _ _) as [[v rest]|].
  - destruct (skip_ws rest); intros H; inversion H; reflexivity.
  - intros H; inversion H; reflexivity.
Qed.

(** C5.  For the response body
    [{'id':'42','name':'Jane Doe','email':'jane@example.com'}] (with
    double quotes) the
    Profile Normalizer hands to its callback [(null, profile)] where
    [profile] is, as data, the profile of the specification, with the
    raw body as [_raw] and the parsed body as [_json]. *)
Theorem jane_doe_profile :
  forall (self : strategy) (accessToken err res : value)
         (done : value -> value -> M unit),
    get (_oauth2 self) profile_url accessToken = (err, jane_body, res) ->
    truthy err = false ->
    exists profile,
      userProfile JSON_parse self accessToken done
      = after [CallGet profile_url accessToken]
          (try_catch (done VNull profile) (fun e => done e VUndefined))
      /\ same_data profile jane_profile = true
      /\ getp profile "_raw" = Ok jane_body
      /\ JSON_parse jane_body = getp profile "_json".
Proof.
  intros self accessToken err res done Hget Herr.
  exists (normalized jane_body jane_json).
  split; [|repeat split; vm_compute; reflexivity].
  assert (Hparse : JSON_parse jane_body = Ok jane_json) by (vm_compute; reflexivity).
  unfold userProfile. fold profile_url. rewrite Hget, Herr, Hparse.
  rewrite emit_then. f_equal.
  unfold bind, lift, try_catch. cbn.
  destruct (done VNull _) as [t r]; reflexivity.
Qed.

(** *** Sample runs of the general theorems *)

Ltac settle :=
  first [ reflexivity | split; settle | left; settle | right; settle
        | eexists; settle ].

Ltac concrete := vm_compute; settle.

Lemma sample_has_no_indicator : ~ has_error_indicator code_request.
Proof. intros [e [He Ht]]. inversion He; subst. discriminate Ht. Defined.

Lemma profile_failure_signals_fail_witness :
  (signals (trace (authenticate JSON_parse unparsable code_request VUndefined))
   = [SigFail [SyntaxError]]
   /\ verify_calls (trace (authenticate JSON_parse unparsable code_request VUndefined))
      = [])
  /\ (signals (trace (authenticate JSON_parse unreachable code_request VUndefined))
      = [SigFail [InternalOAuthError "failed to fetch user profile"
                    (VObj [("statusCode", VNum 500)])]]
      /\ verify_calls (trace (authenticate JSON_parse unreachable code_request VUndefined))
         = []).
Proof.
  split.
  - apply (profile_failure_signals_fail JSON_parse builtin_raises_errors
             unparsable code_request VUndefined (VStr "A") SyntaxError).
    + concrete.
    + concrete.
  - apply (profile_failure_signals_fail JSON_parse builtin_raises_errors
             unreachable code_request VUndefined (VStr "A")).
    + concrete.
    + concrete.
Defined.

Lemma async_skip_error_signals_fail_witness :
  skip_calls (trace (authenticate JSON_parse predicate_fails code_request VUndefined))
  = [CallSkipAsync (VStr "A")]
  /\ signals (trace (authenticate JSON_parse predicate_fails code_request VUndefined))
     = [SigFail [VStr "boom"]]
  /\ get_calls (trace (authenticate JSON_parse predicate_fails code_request VUndefined))
     = []
  /\ verify_calls (trace (authenticate JSON_parse predicate_fails code_request VUndefined))
     = [].
Proof.
  destruct (async_skip_error_signals_fail JSON_parse builtin_raises_errors
              predicate_fails code_request VUndefined
              2 VUndefined (fun _ => (VStr "boom", VUndefined))
              (VStr "xyz") sample_params VNull (VStr "A") (VStr "B") (VObj []))
    as [Hcall Hsignal].
  - reflexivity.
  - lia.
  - concrete.
  - reflexivity.
  - reflexivity.
  - split; [exact Hcall|].
    apply (Hsignal (VStr "boom") VUndefined); reflexivity.
Defined.

Lemma verification_result_mapping_witness :
  signals (trace (authenticate JSON_parse denying code_request VUndefined))
  = [SigFail [VObj [("message", VStr "denied")]]]
  /\ signals (trace (authenticate JSON_parse accepting code_request VUndefined))
     = [SigSuccess (VObj [("id", VNum 1)]) VUndefined]
  /\ signals (trace (authenticate JSON_parse crashing code_request VUndefined))
     = [SigError (VStr "db down")].
Proof.
  split; [|split].
  - apply (verification_result_mapping JSON_parse builtin_raises_errors
             denying code_request VUndefined None (VStr "A") (VStr "B")
             (normalized jane_body jane_json)
             VNull (VBool false) (VObj [("message", VStr "denied")]));
      try reflexivity.
    concrete.
  - apply (verification_result_mapping JSON_parse builtin_raises_errors
             accepting code_request VUndefined None (VStr "A") (VStr "B")
             (normalized jane_body jane_json)
             VNull (VObj [("id", VNum 1)]) VUndefined);
      try reflexivity.
    concrete.
  - apply (verification_result_mapping JSON_parse builtin_raises_errors
             crashing code_request VUndefined None (VStr "A") (VStr "B")
             (normalized jane_body jane_json)
             (VStr "db down") VUndefined VUndefined);
      try reflexivity.
    concrete.
Defined.

Lemma exchange_invocation_and_failure_witness :
  exchange_calls (trace (authenticate JSON_parse rejected code_request VUndefined))
  = [CallExchange (VStr "xyz") sample_params]
  /\ authenticate JSON_parse rejected code_request VUndefined
     = ([CallExchange (VStr "xyz") sample_params;
         SigFail [VObj [("statusCode", VNum 400)]]], Ok tt).
Proof.
  destruct (exchange_invocation_and_failure JSON_parse builtin_raises_errors
              rejected code_request VUndefined (VStr "xyz") (VStr "https://app/cb"))
    as [Hcall Hfail].
  - exact sample_has_no_indicator.
  - reflexivity.
  - concrete.
  - concrete.
  - reflexivity.
  - split; [exact Hcall|].
    apply (Hfail (VObj [("statusCode", VNum 400)]) VUndefined VUndefined VUndefined);
      reflexivity.
Defined.

Lemma jane_doe_profile_witness :
  exists profile,
    userProfile JSON_parse accepting (VStr "A")
      (fun err profile => emit (CallVerify None err (VStr "B") profile))
    = ([CallGet profile_url (VStr "A");
        CallVerify None VNull (VStr "B") profile], Ok tt)
    /\ same_data profile jane_profile = true.
Proof.
  destruct (jane_doe_profile accepting (VStr "A") VNull VUndefined
              (fun err profile => emit (CallVerify None err (VStr "B") profile)))
    as [profile [Hrun [Hsame _]]].
  - reflexivity.
  - reflexivity.
  - exists profile. split; [|exact Hsame].
    rewrite Hrun. reflexivity.
Defined.

Lemma profile_passed_to_verification_witness :
  (exists body json,
     fetched JSON_parse accepting (VStr "A") body json
     /\ getp (normalized jane_body jane_json) "provider" = Ok (VStr "facebook")
     /\ getp (normalized jane_body jane_json) "id" = getp json "id")
  /\ get_calls (trace (authenticate JSON_parse rejected code_request VUndefined)) = []
  /\ verify_calls (trace (authenticate JSON_parse rejected code_request VUndefined)) = [].
Proof.
  split.
  - destruct (proj1 (profile_passed_to_verification JSON_parse builtin_raises_errors
                       accepting code_request VUndefined)
                None (VStr "A") (VStr "B") (normalized jane_body jane_json))
      as [Hnone|[body [json [Hfetch [_ [Hprovider Hid]]]]]].
    + concrete.
    + discriminate Hnone.
    + exists body, json. repeat split; assumption.
  - apply (proj2 (profile_passed_to_verification JSON_parse builtin_raises_errors
                    rejected code_request VUndefined)
             (VStr "xyz") sample_params
             (VObj [("statusCode", VNum 400)]) VUndefined VUndefined VUndefined).
    + concrete.
    + reflexivity.
    + reflexivity.
Defined.

Lemma invalid_request_fails_immediately_witness :
  authenticate JSON_parse accepting error_request VUndefined = ([SigFail []], Ok tt)
  /\ authenticate JSON_parse accepting bodiless_request VUndefined
     = ([SigFail []], Ok tt).
Proof.
  split.
  - apply (invalid_request_fails_immediately JSON_parse accepting error_request VUndefined).
    left. exists (VStr "access_denied"). split; reflexivity.
  - apply (invalid_request_fails_immediately JSON_parse accepting bodiless_request VUndefined).
    right. intros H. discriminate H.
Defined.

Lemma skipped_profile_is_undefined_witness :
  verify_calls (trace (authenticate JSON_parse skip_by_flag code_request VUndefined))
  = [CallVerify None (VStr "A") (VStr "B") VUndefined]
  /\ (skip_calls (trace (authenticate JSON_parse skip_by_function code_request VUndefined))
      = [CallSkipSync]
      /\ get_calls (trace (authenticate JSON_parse skip_by_function code_request VUndefined))
         = [])
  /\ (skip_calls (trace (authenticate JSON_parse skip_by_callback code_request VUndefined))
      = [CallSkipAsync (VStr "A")]
      /\ get_calls (trace (authenticate JSON_parse skip_by_callback code_request VUndefined))
         = []).
Proof.
  split; [|split].
  - destruct (skipped_profile_is_undefined JSON_parse builtin_raises_errors
                skip_by_flag code_request VUndefined
                (VStr "xyz") sample_params VNull (VStr "A") (VStr "B") (VObj []))
      as [Hflag _]; [concrete|reflexivity|reflexivity|].
    destruct (Hflag eq_refl) as [_ [_ Hverify]]. exact Hverify.
  - destruct (skipped_profile_is_undefined JSON_parse builtin_raises_errors
                skip_by_function code_request VUndefined
                (VStr "xyz") sample_params VNull (VStr "A") (VStr "B") (VObj []))
      as [_ [Hfunction _]]; [concrete|reflexivity|reflexivity|].
    destruct (Hfunction 1%nat (VBool true) (fun _ => (VUndefined, VUndefined))
                eq_refl (le_n 1) eq_refl) as [Hskip [Hget _]].
    split; assumption.
  - destruct (skipped_profile_is_undefined JSON_parse builtin_raises_errors
                skip_by_callback code_request VUndefined
                (VStr "xyz") sample_params VNull (VStr "A") (VStr "B") (VObj []))
      as [_ [_ Hcallback]]; [concrete|reflexivity|reflexivity|].
    destruct (Hcallback VUndefined (fun _ => (VNull, VBool true)) eq_refl eq_refl)
      as [Hskip [Hget _]].
    split; assumption.
Defined.

Lemma missing_query_throws_witness :
  authenticate JSON_parse accepting no_query_request VUndefined = ([], Throw TypeError)
  /\ authenticate JSON_parse accepting codeless_request VUndefined
     = ([SigFail []], Ok tt).
Proof.
  split.
  - apply (proj1 (missing_query_throws JSON_parse accepting no_query_request VUndefined)
             VUndefined); reflexivity.
  - apply (proj2 (missing_query_throws JSON_parse accepting codeless_request VUndefined)
             VUndefined); try reflexivity.
    + intros [e [He Ht]]. inversion He; subst. discriminate Ht.
    + concrete.
Defined.

(** *** Where the code departs from the specification *)

(** C1 as stated fails: the identity endpoint answers with text that
    is not JSON, and the attempt signals [fail], not [error]. *)
Lemma unparsable_profile_is_not_an_error :
  In (CallGet profile_url (VStr "A"))
     (trace (authenticate JSON_parse unparsable code_request VUndefined))
  /\ normalizer_fails JSON_parse unparsable (VStr "A") SyntaxError
  /\ signals (trace (authenticate JSON_parse unparsable code_request VUndefined))
     = [SigFail [SyntaxError]]
  /\ signals (trace (authenticate JSON_parse unparsable code_request VUndefined))
     <> [SigError SyntaxError].
Proof.
  split; [concrete|]. split; [concrete|].
  split; [reflexivity|]. vm_compute. discriminate.
Qed.

(** C2 as stated fails: the two-parameter skip predicate completes
    with an error, and the attempt signals [fail], not [error]. *)
Lemma predicate_failure_is_not_an_error :
  _skipUserProfile predicate_fails
  = SkipFunction 2 VUndefined (fun _ => (VStr "boom", VUndefined))
  /\ skip_calls (trace (authenticate JSON_parse predicate_fails code_request VUndefined))
     = [CallSkipAsync (VStr "A")]
  /\ signals (trace (authenticate JSON_parse predicate_fails code_request VUndefined))
     = [SigFail [VStr "boom"]]
  /\ signals (trace (authenticate JSON_parse predicate_fails code_request VUndefined))
     <> [SigError (VStr "boom")].
Proof.
  split; [reflexivity|]. split; [reflexivity|].
  split; [reflexivity|]. vm_compute. discriminate.
Qed.

(** C6 as stated fails: the identity endpoint answers [{}], and the
    verify callback receives a profile whose [id] is [undefined]. *)
Lemma profile_without_id_reaches_verification :
  exists profile,
    In (CallVerify None (VStr "A") (VStr "B") profile)
       (trace (authenticate JSON_parse anonymous code_request VUndefined))
    /\ profile <> VUndefined
    /\ getp profile "provider" = Ok (VStr "facebook")
    /\ getp profile "id" = Ok VUndefined.
Proof.
  exists (normalized (VStr "{}") (VObj [])).
  split; [concrete|]. split; [discriminate|]. split; reflexivity.
Qed.

(** ** The constructor *)

Import Construction.

Lemma lookup_update_same (k : string) (v : value) (props : list (string * value)) :
  lookup k (update k v props) = Some v.
Proof.
  induction props as [|[k' v'] rest IH]; cbn.
  - rewrite String.eqb_refl. reflexivity.
  - destruct (String.eqb k k') eqn:Hk; cbn; rewrite Hk; [reflexivity|exact IH].
Qed.

Lemma lookup_update_other (k k' : string) (v : value) (props : list (string * value)) :
  k <> k' -> lookup k' (update k v props) = lookup k' props.
Proof.
  intros Hne. induction props as [|[k0 v0] rest IH]; cbn.
  - destruct (String.eqb k' k) eqn:Hk; [|reflexivity].
    apply String.eqb_eq in Hk. congruence.
  - destruct (String.eqb k k0) eqn:Hk; cbn.
    + apply String.eqb_eq in Hk. subst k0.
      destruct (String.eqb k' k) eqn:Hk'; [|reflexivity].
      apply String.eqb_eq in Hk'. congruence.
    + destruct (String.eqb k' k0); [reflexivity|exact IH].
Qed.

Lemma update_present (k : string) (v : value) (props : list (string * value)) :
  lookup k props = Some v -> update k v props = props.
Proof.
  induction props as [|[k' v'] rest IH]; cbn; [discriminate|].
  destruct (String.eqb k k') eqn:Hk.
  - intros H; inversion H; reflexivity.
  - intros H. rewrite (IH H). reflexivity.
Qed.

Lemma settled_truthy (given : option value) (default : string) :
  default <> "" -> truthy (settled given default) = true.
Proof.
  intros Hd. unfold settled. destruct given as [url|].
  - destruct (truthy url) eqn:Hu; [exact Hu|].
    cbn. apply Bool.negb_true_iff, String.eqb_neq. exact Hd.
  - cbn. apply Bool.negb_true_iff, String.eqb_neq. exact Hd.
Qed.

Lemma constructor_run (props : list (string * value)) :
  FacebookAuthCodeStrategy (VObj props)
  = Ok {| this_passReqToCallback := field (VObj props) "passReqToCallback";
          super_options :=
            VObj (update "tokenURL"
                    (settled (lookup "tokenURL" props) default_tokenURL)
                    (update "authorizationURL"
                       (settled (lookup "authorizationURL" props)
                                default_authorizationURL)
                       props));
          this_name := "facebook-authcode" |}.
Proof.
  unfold FacebookAuthCodeStrategy, field, settled. cbn [truthy].
  unfold js_or, rbind.
  assert (Hget : forall ps k, getp (VObj ps) k
                              = Ok match lookup k ps with Some v => v | None => VUndefined end).
  { intros ps k. cbn. destruct (lookup k ps); reflexivity. }
  rewrite Hget.
  destruct (lookup "authorizationURL" props) as [a|] eqn:Ha;
    [destruct (truthy a) eqn:Hta|cbn [truthy]];
    cbn [setp]; rewrite Hget, lookup_update_other by discriminate;
    (destruct (lookup "tokenURL" props) as [t|] eqn:Ht;
     [destruct (truthy t) eqn:Htt|cbn [truthy]]);
    cbn [setp]; rewrite !Hget, !lookup_update_other by discriminate;
    reflexivity.
Qed.


(** X17.  Every option other than the two endpoints reaches the base class
    as the caller gave it, and [_passReqToCallback] is the caller's
    [passReqToCallback]. *)
Theorem constructor_passes_options_through :
  forall (props : list (string * value)) (c : constructed) (k : string),
    FacebookAuthCodeStrategy (VObj props) = Ok c ->
    k <> "authorizationURL" -> k <> "tokenURL" ->
    getp (super_options c) k = getp (VObj props) k
    /\ getp (VObj props) "passReqToCallback" = Ok (this_passReqToCallback c).
Proof.
  intros props c k Hrun Ha Ht.
  rewrite constructor_run in Hrun. injection Hrun as <-.
  cbn [super_options this_passReqToCallback getp]. split.
  - rewrite !lookup_update_other by congruence. reflexivity.
  - unfold field. cbn. destruct (lookup "passReqToCallback" props); reflexivity.
Qed.

(** X18.  The constructor changes the caller's options object at most once:
    constructing a second strategy from the options that the first
    construction left behind leaves them as they are. *)
Theorem constructor_settles_once :
  forall (props : list (string * value)) (c : constructed),
    FacebookAuthCodeStrategy (VObj props) = Ok c ->
    exists c',
      FacebookAuthCodeStrategy (super_options c) = Ok c'
      /\ super_options c' = super_options c
      /\ this_passReqToCallback c' = this_passReqToCallback c.
Proof.
  intros props c Hrun.
  rewrite constructor_run in Hrun. injection Hrun as <-.
  cbn [super_options this_passReqToCallback].
  set (a := settled (lookup "authorizationURL" props) default_authorizationURL).
  set (t := settled (lookup "tokenURL" props) default_tokenURL).
  assert (Hta : truthy a = true) by (apply settled_truthy; discriminate).
  assert (Htt : truthy t = true) by (apply settled_truthy; discriminate).
  eexists. split; [apply constructor_run|].
  cbn [super_options this_passReqToCallback].
  rewrite lookup_update_same.
  rewrite lookup_update_other, lookup_update_same by discriminate.
  unfold settled at 1 2. rewrite Hta, Htt. split.
  - f_equal.
    rewrite (update_present "authorizationURL" a)
      by (rewrite lookup_update_other, lookup_update_same by discriminate;
          reflexivity).
    apply update_present, lookup_update_same.
  - unfold field. cbn [getp].
    rewrite !lookup_update_other by discriminate. reflexivity.
Qed.

(** *** Sample runs of the further theorems *)

Import Scenarios.


Lemma calls_in_order_witness :
  in_order (trace (authenticate JSON_parse verify_throws_falsy code_request VUndefined))
  = true
  /\ (List.length (verify_calls (trace (authenticate JSON_parse verify_throws_falsy
                                          code_request VUndefined))) <= 2)%nat.
Proof.
  destruct (calls_in_order JSON_parse builtin_raises_errors
              verify_throws_falsy code_request VUndefined)
    as [Horder [_ [_ [_ Hverify]]]].
  split; assumption.
Defined.

Lemma tokens_are_those_of_the_exchange_witness :
  (profile_url = "https://graph.facebook.com/v2.2/me" /\ VStr "A" = VStr "A")
  /\ (VStr "A" = VStr "A" /\ VStr "B" = VStr "B").
Proof.
  destruct (tokens_are_those_of_the_exchange JSON_parse builtin_raises_errors
              accepting code_request VUndefined
              (VStr "xyz") sample_params VNull (VStr "A") (VStr "B") (VObj []))
    as [Hget Hverify].
  - concrete.
  - reflexivity.
  - split.
    + apply (Hget profile_url (VStr "A")). concrete.
    + apply (Hverify None (VStr "A") (VStr "B") (normalized jane_body jane_json)).
      concrete.
Defined.

Lemma request_forwarded_on_demand_witness :
  Some code_request = Some code_request
  /\ (None : option request) = None.
Proof.
  split.
  - apply (request_forwarded_on_demand JSON_parse builtin_raises_errors
             forwarding code_request VUndefined (Some code_request)
             (VStr "A") (VStr "B") (normalized jane_body jane_json)).
    concrete.
  - apply (request_forwarded_on_demand JSON_parse builtin_raises_errors
             accepting code_request VUndefined None
             (VStr "A") (VStr "B") (normalized jane_body jane_json)).
    concrete.
Defined.

Lemma success_requires_acceptance_witness :
  exists r accessToken refreshToken profile err,
    In (CallVerify r accessToken refreshToken profile)
       (trace (authenticate JSON_parse accepting code_request VUndefined))
    /\ _verify accepting r accessToken refreshToken profile
       = Completes err (VObj [("id", VNum 1)]) VUndefined
    /\ truthy err = false /\ truthy (VObj [("id", VNum 1)]) = true.
Proof.
  apply (success_requires_acceptance JSON_parse builtin_raises_errors
           accepting code_request VUndefined (VObj [("id", VNum 1)]) VUndefined).
  concrete.
Defined.

Lemma error_only_from_verification_witness :
  exists r accessToken refreshToken profile user info,
    In (CallVerify r accessToken refreshToken profile)
       (trace (authenticate JSON_parse crashing code_request VUndefined))
    /\ _verify crashing r accessToken refreshToken profile
       = Completes (VStr "db down") user info
    /\ truthy (VStr "db down") = true.
Proof.
  apply (error_only_from_verification JSON_parse builtin_raises_errors
           crashing code_request VUndefined (VStr "db down")).
  concrete.
Defined.

Lemma verify_exception_with_profile_witness :
  (snd (authenticate JSON_parse verify_throws code_request VUndefined) = Ok tt
   /\ signals (trace (authenticate JSON_parse verify_throws code_request VUndefined))
      = [SigFail [VStr "TypeError in verify"]])
  /\ verify_calls (trace (authenticate JSON_parse verify_throws_falsy
                            code_request VUndefined))
     = [CallVerify None (VStr "A") (VStr "B") (normalized jane_body jane_json);
        CallVerify None (VStr "A") (VStr "B") VUndefined].
Proof.
  split.
  - destruct (verify_exception_with_profile JSON_parse builtin_raises_errors
                verify_throws code_request VUndefined None (VStr "A") (VStr "B")
                (normalized jane_body jane_json) (VStr "TypeError in verify"))
      as [Htruthy _].
    + concrete.
    + discriminate.
    + reflexivity.
    + destruct (Htruthy eq_refl) as [Hreturns [Hsignal _]].
      split; assumption.
  - destruct (verify_exception_with_profile JSON_parse builtin_raises_errors
                verify_throws_falsy code_request VUndefined None (VStr "A") (VStr "B")
                (normalized jane_body jane_json) VUndefined)
      as [_ Hfalsy].
    + concrete.
    + discriminate.
    + reflexivity.
    + exact (Hfalsy eq_refl).
Defined.

Lemma verify_exception_without_profile_witness :
  snd (authenticate JSON_parse verify_throws_skipped code_request VUndefined)
  = Throw (VStr "TypeError in verify")
  /\ signals (trace (authenticate JSON_parse verify_throws_skipped
                       code_request VUndefined)) = [].
Proof.
  apply (verify_exception_without_profile JSON_parse builtin_raises_errors
           verify_throws_skipped code_request VUndefined None (VStr "A") (VStr "B")
           (VStr "TypeError in verify")).
  - concrete.
  - reflexivity.
Defined.

Lemma profile_loaded_unless_skipped_witness :
  get_calls (trace (authenticate JSON_parse load_by_default code_request VUndefined))
  = [CallGet "https://graph.facebook.com/v2.2/me" (VStr "A")]
  /\ skip_calls (trace (authenticate JSON_parse load_by_function code_request VUndefined))
     = [CallSkipSync]
  /\ get_calls (trace (authenticate JSON_parse load_by_callback code_request VUndefined))
     = [CallGet "https://graph.facebook.com/v2.2/me" (VStr "A")].
Proof.
  split; [|split].
  - destruct (profile_loaded_unless_skipped JSON_parse builtin_raises_errors
                load_by_default code_request VUndefined
                (VStr "xyz") sample_params VNull (VStr "A") (VStr "B") (VObj []))
      as [Hvalue _]; [concrete|reflexivity|reflexivity|].
    exact (proj2 (Hvalue VUndefined eq_refl eq_refl)).
  - destruct (profile_loaded_unless_skipped JSON_parse builtin_raises_errors
                load_by_function code_request VUndefined
                (VStr "xyz") sample_params VNull (VStr "A") (VStr "B") (VObj []))
      as [_ [Hfunction _]]; [concrete|reflexivity|reflexivity|].
    exact (proj1 (Hfunction 0%nat (VBool false) (fun _ => (VUndefined, VUndefined))
                    eq_refl (le_S 0 0 (le_n 0)) eq_refl)).
  - destruct (profile_loaded_unless_skipped JSON_parse builtin_raises_errors
                load_by_callback code_request VUndefined
                (VStr "xyz") sample_params VNull (VStr "A") (VStr "B") (VObj []))
      as [_ [_ Hcallback]]; [concrete|reflexivity|reflexivity|].
    exact (proj2 (Hcallback 2%nat VUndefined (fun _ => (VNull, VBool false))
                    VNull (VBool false) eq_refl (le_n 2) eq_refl eq_refl eq_refl)).
Defined.

Lemma body_request_has_no_indicator : ~ has_error_indicator body_only_request.
Proof. intros [e [He _]]. discriminate He. Defined.

Lemma body_fields_win_witness :
  exchange_calls (trace (authenticate JSON_parse accepting body_only_request VUndefined))
  = [CallExchange (VStr "xyz") sample_params].
Proof.
  apply (body_fields_win JSON_parse builtin_raises_errors
           accepting body_only_request VUndefined (VStr "xyz") (VStr "https://app/cb")).
  - exact body_request_has_no_indicator.
  - reflexivity.
  - reflexivity.
  - reflexivity.
  - reflexivity.
Defined.

Lemma query_request_has_no_indicator : ~ has_error_indicator query_code_request.
Proof. intros [e [He Ht]]. inversion He; subst. discriminate Ht. Defined.

Lemma query_fields_are_the_fallback_witness :
  exchange_calls (trace (authenticate JSON_parse accepting query_code_request VUndefined))
  = [CallExchange (VStr "from-query")
       (VObj [("grant_type", VStr "authorization_code");
              ("redirect_uri", VUndefined)])].
Proof.
  apply (query_fields_are_the_fallback JSON_parse builtin_raises_errors
           accepting query_code_request VUndefined
           VUndefined (VStr "from-query") VUndefined VUndefined).
  - exact query_request_has_no_indicator.
  - reflexivity.
  - reflexivity.
  - reflexivity.
  - reflexivity.
  - reflexivity.
  - reflexivity.
  - reflexivity.
Defined.

Lemma redirect_uri_read_throws_witness :
  authenticate JSON_parse accepting code_only_request VUndefined
  = ([], Throw TypeError).
Proof.
  apply (redirect_uri_read_throws JSON_parse accepting code_only_request VUndefined
           (VStr "xyz") VUndefined); reflexivity.
Defined.

Lemma recording_returns : forall err profile, snd (recording err profile) = Ok tt.
Proof. intros err profile. reflexivity. Defined.

Lemma profile_callback_contract_witness :
  exists err profile,
    userProfile JSON_parse unparsable (VStr "A") recording
    = after [CallGet "https://graph.facebook.com/v2.2/me" (VStr "A")]
            (recording err profile)
    /\ ((truthy err = true /\ profile = VUndefined)
        \/ (err = VNull /\ truthy profile = true)).
Proof.
  exact (profile_callback_contract JSON_parse builtin_raises_errors
           unparsable (VStr "A") recording recording_returns).
Defined.

Lemma jane_is_fetched : fetched JSON_parse accepting (VStr "A") jane_body jane_json.
Proof. exists VNull, VUndefined. repeat split. Defined.

Lemma profile_callback_called_again_witness :
  userProfile JSON_parse accepting (VStr "A") rethrowing
  = ([CallGet "https://graph.facebook.com/v2.2/me" (VStr "A"); SigFail [VStr "late"]],
     Ok tt).
Proof.
  rewrite (profile_callback_called_again JSON_parse
             accepting (VStr "A") jane_body jane_json (VStr "late") rethrowing []).
  - reflexivity.
  - exact jane_is_fetched.
  - intros profile Hprofile. reflexivity.
Defined.

Lemma profile_field_mapping_witness :
  exists profile family given email,
    userProfile JSON_parse accepting (VStr "A") recording
    = after [CallGet "https://graph.facebook.com/v2.2/me" (VStr "A")]
            (try_catch (recording VNull profile) (fun e => recording e VUndefined))
    /\ getp profile "provider" = Ok (VStr "facebook")
    /\ getp profile "id" = getp jane_json "id"
    /\ getp profile "displayName" = getp jane_json "name"
    /\ getp jane_json "family_name" = Ok family
    /\ getp jane_json "given_name" = Ok given
    /\ getp profile "name"
       = Ok (VObj [("familyName", family); ("givenName", given)])
    /\ getp jane_json "email" = Ok email
    /\ getp profile "emails" = Ok (VArr [VObj [("value", email)]])
    /\ getp profile "_raw" = Ok jane_body
    /\ getp profile "_json" = Ok jane_json.
Proof.
  exact (profile_field_mapping JSON_parse accepting (VStr "A") jane_body jane_json
           recording jane_is_fetched).
Defined.


Lemma constructor_passes_options_through_witness :
  getp (VObj [("clientID", VStr "123");
              ("tokenURL", VStr "https://proxy/token");
              ("authorizationURL", VStr default_authorizationURL);
              ("passReqToCallback", VBool true)]) "clientID"
  = getp custom_options "clientID"
  /\ getp custom_options "passReqToCallback" = Ok (VBool true).
Proof.
  apply (constructor_passes_options_through
           (match custom_options with VObj props => props | _ => [] end)
           {| this_passReqToCallback := VBool true;
              super_options :=
                VObj [("clientID", VStr "123");
                      ("tokenURL", VStr "https://proxy/token");
                      ("authorizationURL", VStr default_authorizationURL);
                      ("passReqToCallback", VBool true)];
              this_name := "facebook-authcode" |}
           "clientID").
  - reflexivity.
  - discriminate.
  - discriminate.
Defined.

Lemma constructor_settles_once_witness :
  exists c',
    FacebookAuthCodeStrategy
      (VObj [("clientID", VStr "123"); ("clientSecret", VStr "shhh");
             ("authorizationURL", VStr default_authorizationURL);
             ("tokenURL", VStr default_tokenURL)])
    = Ok c'
    /\ super_options c'
       = VObj [("clientID", VStr "123"); ("clientSecret", VStr "shhh");
               ("authorizationURL", VStr default_authorizationURL);
               ("tokenURL", VStr default_tokenURL)]
    /\ this_passReqToCallback c' = VUndefined.
Proof.
  apply (constructor_settles_once
           (match bare_options with VObj props => props | _ => [] end)
           {| this_passReqToCallback := VUndefined;
              super_options :=
                VObj [("clientID", VStr "123"); ("clientSecret", VStr "shhh");
                      ("authorizationURL", VStr default_authorizationURL);
                      ("tokenURL", VStr default_tokenURL)];
              this_name := "facebook-authcode" |}).
  reflexivity.
Defined.
